(** * ZenStudy: statistics, time-range reporting and staged deletion

    A shallow embedding of the aggregation and deletion logic of the exam
    preparation tracker (App.tsx, StatsDashboard.tsx, ReviewSection,
    HistoryDrawer, services/storage) and the properties of its specification.

    Modelling conventions.
    - JavaScript numbers that hold counts and epoch milliseconds are integers
      ([Z]); quotients are exact rationals ([Q]).  The binary64 rounding of an
      intermediate quotient is not part of the model: where the exact
      percentage is a tie such as 14.5, the rounded double can fall on
      either side of it.
    - A calendar date string [YYYY-MM-DD] is represented by its day number
      (days since 1970-01-01).  The value of a date input is [option Z]:
      [None] is the empty string.
    - The local time zone is a fixed offset [tz] in milliseconds
      (local time = UTC + tz); daylight-saving shifts are not modelled.
    - [Array.prototype.sort] is stable, so it is modelled by a stable
      insertion sort driven by the comparator of the source. *)

From stdpp Require Import gmap strings list fin_maps.
From Stdlib Require Import ZArith QArith Qround Lia Sorted.
From Equations Require Import Equations.

Local Open Scope Z_scope.

(* ================================================================== *)
(** * Part I: the program                                               *)
(* ================================================================== *)

(** ** types.ts *)

Inductive CategoryId := Speech | Politics | Common | Logic | Data.

#[global] Instance CategoryId_eq_dec : EqDecision CategoryId.
Proof. solve_decision. Defined.

Record QuestionRecord := mkQuestionRecord {
  total : Z;
  correct : Z;
  duration : Z
}.

(** [Record<CategoryId, QuestionRecord>]: all five keys are present, in the
    order in which DailyCheckIn creates them. *)
Record Categories := mkCategories {
  speech : QuestionRecord;
  politics : QuestionRecord;
  common : QuestionRecord;
  logic : QuestionRecord;
  data : QuestionRecord
}.

(** [categories[cat]] *)
Definition category (c : Categories) (cat : CategoryId) : QuestionRecord :=
  match cat with
  | Speech => speech c
  | Politics => politics c
  | Common => common c
  | Logic => logic c
  | Data => data c
  end.

(** The enumeration order of the keys of a categories object. *)
Definition categoryOrder : list CategoryId :=
  [Speech; Politics; Common; Logic; Data].

Definition Object_entries (c : Categories) : list (CategoryId * QuestionRecord) :=
  map (fun cat => (cat, category c cat)) categoryOrder.

Definition Object_values (c : Categories) : list QuestionRecord :=
  map (category c) categoryOrder.

Module DailyLog.
Record t := mk {
  id : string;
  date : Z;
  categories : Categories;
  timestamp : Z
}.
End DailyLog.

Module ReviewNote.
Record t := mk {
  id : string;
  date : Z;
  content : string;
  targetId : string;
  timestamp : Z
}.
End ReviewNote.

Module ExamTarget.
Record t := mk {
  id : string;
  name : string;
  examDate : Z;
  color : string;
  createdAt : Z
}.
End ExamTarget.

Record AppState := mkAppState {
  targets : list ExamTarget.t;
  selectedTargetId : option string;
  logs : gmap string (list DailyLog.t);
  reviews : gmap string (list ReviewNote.t)
}.

(** ** JavaScript helpers *)

(** Truthiness of a number: [0] is falsy. *)
Definition truthy (n : Z) : bool := negb (n =? 0).

(** [a || b] on numbers. *)
Definition js_or (a b : Z) : Z := if truthy a then a else b.

(** [Math.round]: nearest integer, ties towards plus infinity. *)
Definition Math_round (q : Q) : Z := Qfloor (q + (1 # 2))%Q.

(** [Array.prototype.sort(cmp)]: [x] goes before [y] when [cmp x y <= 0] and
    [x] came first, which is what a stable sort does. *)
Fixpoint insertBy {A} (cmp : A -> A -> Z) (x : A) (l : list A) : list A :=
  match l with
  | [] => [x]
  | y :: l' => if cmp x y <=? 0 then x :: y :: l' else y :: insertBy cmp x l'
  end.

Definition sortBy {A} (cmp : A -> A -> Z) (l : list A) : list A :=
  foldr (insertBy cmp) [] l.

(** The inline expression
    [total > 0 ? Math.round((correct / total) * 100) : 0]
    of StatsDashboard, ReviewSection and HistoryDrawer. *)
Definition accuracy (total correct : Z) : Z :=
  if total >? 0
  then Math_round ((inject_Z correct / inject_Z total) * inject_Z 100)%Q
  else 0.

(** [Object.values(log.categories).forEach(c => { total += c.total; correct += c.correct })] *)
Definition sumTotal (c : Categories) : Z :=
  foldl (fun acc r => acc + total r) 0 (Object_values c).

Definition sumCorrect (c : Categories) : Z :=
  foldl (fun acc r => acc + correct r) 0 (Object_values c).

Definition sumDuration (c : Categories) : Z :=
  foldl (fun acc r => acc + duration r) 0 (Object_values c).

(** ** Dates *)

Definition msPerDay : Z := 1000 * 3600 * 24.

Section Clock.
Variable tz : Z.
Variable now : Z.

(** [format(d, 'yyyy-MM-dd')]: the local calendar day of an instant. *)
Definition format_yyyyMMdd (t : Z) : Z := (t + tz) `div` msPerDay.

(** [d.setHours(0,0,0,0)] *)
Definition setHours_0 (t : Z) : Z := format_yyyyMMdd t * msPerDay - tz.

(** [d.setHours(23,59,59,999)] *)
Definition setHours_23_59_59_999 (t : Z) : Z :=
  format_yyyyMMdd t * msPerDay + (msPerDay - 1) - tz.

(** [d.setDate(d.getDate() + k)] *)
Definition addDays (t k : Z) : Z := t + k * msPerDay.

(** [new Date(y, m - 1, d)]: local midnight of the calendar day. *)
Definition newDate_local (day : Z) : Z := day * msPerDay - tz.

(** [new Date('YYYY-MM-DD')]: a date-only ISO string is read as UTC
    midnight. *)
Definition newDate_iso (day : Z) : Z := day * msPerDay.

(** [new Date(str)] for the value of a date input: the empty string gives an
    invalid date, whose time value is NaN ([None]). *)
Definition newDate_string (dateStr : option Z) : option Z :=
  newDate_iso <$> dateStr.

(** [parseLocal] of StatsDashboard and ReviewSection. *)
Definition parseLocal (dateStr : option Z) : Z :=
  match dateStr with
  | None => now
  | Some day => newDate_local day
  end.

Definition getStartOfDay (t : Z) : Z := setHours_0 t.

Definition getEndOfDay (t : Z) : Z := setHours_23_59_59_999 t.

End Clock.

(** [dayLogs.forEach(log => Object.values(log.categories).forEach(c => ...))] *)
Definition logsTotal (dayLogs : list DailyLog.t) : Z :=
  foldl (fun acc log =>
           foldl (fun acc r => acc + total r) acc
                 (Object_values (DailyLog.categories log))) 0 dayLogs.

Definition logsCorrect (dayLogs : list DailyLog.t) : Z :=
  foldl (fun acc log =>
           foldl (fun acc r => acc + correct r) acc
                 (Object_values (DailyLog.categories log))) 0 dayLogs.

Definition logsDuration (dayLogs : list DailyLog.t) : Z :=
  foldl (fun acc log =>
           foldl (fun acc r => acc + duration r) acc
                 (Object_values (DailyLog.categories log))) 0 dayLogs.

(** ** components/StatsDashboard.tsx *)

Module StatsDashboard.

Inductive ChartPoint :=
  | SessionPoint (time : Z) (ordinal : Z) (accuracy : Z)
  | DayPoint (fullDate : Z) (accuracy : Z).

Definition pointAccuracy (p : ChartPoint) : Z :=
  match p with
  | SessionPoint _ _ a => a
  | DayPoint _ a => a
  end.

Section Component.
Variable tz : Z.
Variable now : Z.
Variable logs : list DailyLog.t.

(** The [for (const log of sortedLogs)] loop of [calculateStreak];
    [continue] skips a date already seen, [break] returns. *)
Fixpoint streakLoop (sortedLogs : list DailyLog.t) (processedDates : gset Z)
    (currentCheckDate : Z) (streak : Z) : Z :=
  match sortedLogs with
  | [] => streak
  | log :: rest =>
      let logDate := setHours_0 tz (parseLocal tz now (Some (DailyLog.date log))) in
      let dateStr := format_yyyyMMdd tz logDate in
      if bool_decide (dateStr ∈ processedDates)
      then streakLoop rest processedDates currentCheckDate streak
      else
        let processedDates := {[dateStr]} ∪ processedDates in
        if logDate =? currentCheckDate
        then streakLoop rest processedDates (addDays currentCheckDate (-1)) (streak + 1)
        else streak
  end.

(** [sortedLogs[0]] exists: the empty case has returned. *)
Definition calculateStreak : Z :=
  if (length logs =? 0)%nat then 0 else
  let sortedLogs :=
    sortBy (fun a b => DailyLog.timestamp b - DailyLog.timestamp a) logs in
  match sortedLogs with
  | [] => 0
  | first :: _ =>
      let today := setHours_0 tz now in
      let lastLogDate :=
        setHours_0 tz (parseLocal tz now (Some (DailyLog.date first))) in
      let diffTime := today - lastLogDate in
      let diffDays := (inject_Z diffTime / inject_Z (1000 * 3600 * 24))%Q in
      if Qlt_le_dec (inject_Z 1) diffDays then 0
      else streakLoop sortedLogs ∅ lastLogDate 0
  end.

(** The accuracy of one day of the multi-day chart. *)
Definition dayAccuracy (dayLogs : list DailyLog.t) : Z :=
  if (0 <? length dayLogs)%nat
  then accuracy (logsTotal dayLogs) (logsCorrect dayLogs)
  else 0.

(** [while (current <= end) { ...; current.setDate(current.getDate() + 1) }] *)
Equations daysLoop (endT current : Z) : list ChartPoint
  by wf (Z.to_nat ((endT - current) `div` msPerDay + 1)) lt :=
  daysLoop endT current with decide (current <= endT) => {
    | left _ :=
        let dateStr := format_yyyyMMdd tz current in
        let dayLogs := List.filter (fun l => DailyLog.date l =? dateStr) logs in
        DayPoint dateStr (dayAccuracy dayLogs) :: daysLoop endT (addDays current 1)
    | right _ := [] }.
Next Obligation.
  unfold addDays.
  replace (endT - (current + 1 * msPerDay))
    with ((endT - current) + (-1) * msPerDay) by lia.
  rewrite Z.div_add by (unfold msPerDay; lia).
  assert (0 <= (endT - current) `div` msPerDay)
    by (apply Z.div_pos; unfold msPerDay; lia).
  lia.
Qed.

Definition chartData (startDate endDate : option Z) : list ChartPoint :=
  let start := setHours_0 tz (parseLocal tz now startDate) in
  let endT := setHours_23_59_59_999 tz (parseLocal tz now endDate) in
  if bool_decide (startDate = endDate) then
    let dayLogs :=
      sortBy (fun a b => DailyLog.timestamp a - DailyLog.timestamp b)
        (List.filter (fun l => bool_decide (Some (DailyLog.date l) = startDate)) logs) in
    imap (fun index log =>
            SessionPoint (DailyLog.timestamp log) (Z.of_nat index + 1)
              (accuracy (sumTotal (DailyLog.categories log))
                        (sumCorrect (DailyLog.categories log))))
         dayLogs
  else daysLoop endT start.

Definition getTotalQuestions : Z :=
  foldl (fun acc log =>
           acc + foldl (fun sum cat => sum + total cat) 0
                   (Object_values (DailyLog.categories log))) 0 logs.

(** [if (!totals[key]) totals[key] = { total: 0, correct: 0 };
     totals[key].total += v.total; totals[key].correct += v.correct]
    on an object whose keys keep their insertion order. *)
Fixpoint addToTotals (totals : list (CategoryId * (Z * Z)))
    (key : CategoryId) (v : QuestionRecord) : list (CategoryId * (Z * Z)) :=
  match totals with
  | [] => [(key, (0 + total v, 0 + correct v))]
  | (k, (t, c)) :: rest =>
      if decide (k = key)
      then (k, (t + total v, c + correct v)) :: rest
      else (k, (t, c)) :: addToTotals rest key v
  end.

Definition accumulateTotals (ls : list DailyLog.t) : list (CategoryId * (Z * Z)) :=
  foldl (fun totals log =>
           foldl (fun totals kv => addToTotals totals (fst kv) (snd kv))
                 totals (Object_entries (DailyLog.categories log)))
        [] ls.

(** One step of [Object.entries(totals).forEach(...)] on the pair
    [(minAcc, weakestKey)]. *)
Definition weakestStep (st : Q * option CategoryId)
    (entry : CategoryId * (Z * Z)) : Q * option CategoryId :=
  let '(minAcc, weakestKey) := st in
  let '(key, (t, c)) := entry in
  if t >? 10 then
    let acc := ((inject_Z c / inject_Z t) * inject_Z 100)%Q in
    if Qlt_le_dec acc minAcc then (acc, Some key) else (minAcc, weakestKey)
  else (minAcc, weakestKey).

(** The result stands for the [CategoryMeta] entry of the key. *)
Definition getWeakestCategory : option CategoryId :=
  if (length logs =? 0)%nat then None else
  let totals := accumulateTotals logs in
  snd (foldl weakestStep (inject_Z 101, None) totals).

End Component.
End StatsDashboard.

(** ** components/ReviewSection.tsx *)

Module ReviewSection.

Inductive ChartPoint :=
  | SessionPoint (time : Z) (date : Z) (ordinal : Z) (accuracy : Z)
  | DayPoint (fullDate : Z) (accuracy : Z).

Definition pointAccuracy (p : ChartPoint) : Z :=
  match p with
  | SessionPoint _ _ _ a => a
  | DayPoint _ a => a
  end.

Record FilteredData := mkFilteredData {
  periodLogs : list DailyLog.t;
  periodReviews : list ReviewNote.t
}.

Record ViewStats := mkViewStats {
  totalQuestions : Z;
  viewAccuracy : Z;
  totalDuration : Z;
  avgTimePerQuestion : Q;
  daysActive : nat
}.

Section Component.
Variable tz : Z.
Variable now : Z.
Variable logs : list DailyLog.t.
Variable reviews : list ReviewNote.t.
Variable startDate : option Z.
Variable endDate : option Z.
(** ['ALL'] is [None]. *)
Variable selectedCategory : option CategoryId.

(** The predicate of [logs.filter(...)] in [filteredData]. *)
Definition logInPeriod (log : DailyLog.t) : bool :=
  let start := getStartOfDay tz (parseLocal tz now startDate) in
  let endT := getEndOfDay tz (parseLocal tz now endDate) in
  let logTs :=
    js_or (DailyLog.timestamp log)
          (parseLocal tz now (Some (DailyLog.date log))) in
  (start <=? logTs) && (logTs <=? endT).

(** The predicate of [reviews.filter(...)] in [filteredData]. *)
Definition noteInPeriod (note : ReviewNote.t) : bool :=
  let start := getStartOfDay tz (parseLocal tz now startDate) in
  let endT := getEndOfDay tz (parseLocal tz now endDate) in
  let t := ReviewNote.timestamp note in
  (start <=? t) && (t <=? endT).

Definition filteredData : FilteredData :=
  {| periodLogs := List.filter logInPeriod logs;
     periodReviews :=
       sortBy (fun a b => ReviewNote.timestamp b - ReviewNote.timestamp a)
              (List.filter noteInPeriod reviews) |}.

(** The totals of one log under the category selection. *)
Definition selectedTotal (log : DailyLog.t) (acc : Z) : Z :=
  match selectedCategory with
  | None =>
      foldl (fun acc r => acc + total r) acc
            (Object_values (DailyLog.categories log))
  | Some cat => acc + total (category (DailyLog.categories log) cat)
  end.

Definition selectedCorrect (log : DailyLog.t) (acc : Z) : Z :=
  match selectedCategory with
  | None =>
      foldl (fun acc r => acc + correct r) acc
            (Object_values (DailyLog.categories log))
  | Some cat => acc + correct (category (DailyLog.categories log) cat)
  end.

Definition selectedDuration (log : DailyLog.t) (acc : Z) : Z :=
  match selectedCategory with
  | None =>
      foldl (fun acc r => acc + duration r) acc
            (Object_values (DailyLog.categories log))
  | Some cat => acc + duration (category (DailyLog.categories log) cat)
  end.

Definition viewStats : ViewStats :=
  let ls := periodLogs filteredData in
  let totalQuestions := foldl (fun acc log => selectedTotal log acc) 0 ls in
  let totalCorrect := foldl (fun acc log => selectedCorrect log acc) 0 ls in
  let totalDuration := foldl (fun acc log => selectedDuration log acc) 0 ls in
  {| totalQuestions := totalQuestions;
     viewAccuracy := accuracy totalQuestions totalCorrect;
     totalDuration := totalDuration;
     avgTimePerQuestion :=
       if totalQuestions >? 0
       then (inject_Z totalDuration / inject_Z totalQuestions)%Q
       else inject_Z 0;
     daysActive := length (remove_dups (map DailyLog.date ls)) |}.

Definition dayAccuracy (dayLogs : list DailyLog.t) : Z :=
  if (0 <? length dayLogs)%nat
  then accuracy (foldl (fun acc log => selectedTotal log acc) 0 dayLogs)
                (foldl (fun acc log => selectedCorrect log acc) 0 dayLogs)
  else 0.

(** [for (let d = new Date(start); d <= end; d.setDate(d.getDate() + 1))] *)
Equations daysLoop (endT d : Z) : list ChartPoint
  by wf (Z.to_nat ((endT - d) `div` msPerDay + 1)) lt :=
  daysLoop endT d with decide (d <= endT) => {
    | left _ :=
        let dateStr := format_yyyyMMdd tz d in
        let dayLogs :=
          List.filter (fun l => DailyLog.date l =? dateStr)
                      (periodLogs filteredData) in
        DayPoint dateStr (dayAccuracy dayLogs) :: daysLoop endT (addDays d 1)
    | right _ := [] }.
Next Obligation.
  unfold addDays.
  replace (endT - (d + 1 * msPerDay))
    with ((endT - d) + (-1) * msPerDay) by lia.
  rewrite Z.div_add by (unfold msPerDay; lia).
  assert (0 <= (endT - d) `div` msPerDay)
    by (apply Z.div_pos; unfold msPerDay; lia).
  lia.
Qed.

(** In the single-day branch [sort] reorders the array of [filteredData] in
    place; the other readers of that array sum over it or sort it again. *)
Definition chartData : list ChartPoint :=
  let isSingleDay := bool_decide (startDate = endDate) in
  if isSingleDay then
    imap (fun index log =>
            SessionPoint (DailyLog.timestamp log) (DailyLog.date log)
              (Z.of_nat index + 1)
              (accuracy (selectedTotal log 0) (selectedCorrect log 0)))
         (sortBy (fun a b => DailyLog.timestamp a - DailyLog.timestamp b)
                 (periodLogs filteredData))
  else
    let start := parseLocal tz now startDate in
    let endT := parseLocal tz now endDate in
    daysLoop endT start.

End Component.
End ReviewSection.

(** ** components/HistoryDrawer.tsx *)

Module HistoryDrawer.

(** The [useState] cells of the bulk-deletion footer. *)
Record State := mkState {
  isDeleteMode : bool;
  deleteStart : option Z;
  deleteEnd : option Z;
  deleteConfirmStep : Z;
  estimatedSize : string
}.

Definition initialState : State :=
  {| isDeleteMode := false; deleteStart := None; deleteEnd := None;
     deleteConfirmStep := 0; estimatedSize := EmptyString |}.

Record Totals := mkTotals {
  totalQ : Z;
  totalC : Z;
  totalT : Z;
  totalsAccuracy : Z
}.

Definition calculateTotal (dailyLogs : list DailyLog.t) : Totals :=
  let q := logsTotal dailyLogs in
  let c := logsCorrect dailyLogs in
  let t := logsDuration dailyLogs in
  {| totalQ := q; totalC := c; totalT := t; totalsAccuracy := accuracy q c |}.

Section Component.
Variable tz : Z.
(** [new Blob([JSON.stringify({ logs, reviews })]).size] *)
Variable serializedSize : list DailyLog.t -> list ReviewNote.t -> Z.
(** The unit scaling and [toFixed] rendering of [formatBytes]. *)
Variable renderBytes : Z -> string.
Variable logs : list DailyLog.t.
Variable reviews : list ReviewNote.t.

Definition formatBytes (bytes : Z) : string :=
  if negb (truthy bytes) then "0 Bytes"%string else renderBytes bytes.

(** The predicates of the two filters of [calculateDataSize]. *)
Definition logInRange (start endT : Z) (l : DailyLog.t) : bool :=
  let t := js_or (DailyLog.timestamp l) (newDate_iso (DailyLog.date l)) in
  (start <=? t) && (t <=? endT).

Definition reviewInRange (start endT : Z) (r : ReviewNote.t) : bool :=
  let t := ReviewNote.timestamp r in
  (start <=? t) && (t <=? endT).

(** [logsInRange] and [reviewsInRange] of [calculateDataSize], for the two
    dates it is called with. *)
Definition logsInRange (startDay endDay : Z) : list DailyLog.t :=
  let start := setHours_0 tz (newDate_iso startDay) in
  let endT := setHours_23_59_59_999 tz (newDate_iso endDay) in
  List.filter (logInRange start endT) logs.

Definition reviewsInRange (startDay endDay : Z) : list ReviewNote.t :=
  let start := setHours_0 tz (newDate_iso startDay) in
  let endT := setHours_23_59_59_999 tz (newDate_iso endDay) in
  List.filter (reviewInRange start endT) reviews.

Definition calculateDataSize (startStr endStr : option Z) : string :=
  match startStr, endStr with
  | Some startDay, Some endDay =>
      formatBytes (serializedSize (logsInRange startDay endDay)
                                  (reviewsInRange startDay endDay))
  | _, _ => "0 Bytes"%string
  end.

(** [handleDeleteFlow]: the new state and the call of [onDeleteRange] it
    makes, if any. *)
Definition handleDeleteFlow (st : State) : State * option (option Z * option Z) :=
  if deleteConfirmStep st =? 0 then
    (mkState (isDeleteMode st) (deleteStart st) (deleteEnd st) 1 (estimatedSize st),
     None)
  else if deleteConfirmStep st =? 1 then
    match deleteStart st, deleteEnd st with
    | Some _, Some _ =>
        (mkState (isDeleteMode st) (deleteStart st) (deleteEnd st) 2 (estimatedSize st),
         None)
    | _, _ => (st, None)
    end
  else if deleteConfirmStep st =? 2 then
    let size := calculateDataSize (deleteStart st) (deleteEnd st) in
    (mkState (isDeleteMode st) (deleteStart st) (deleteEnd st) 3 size, None)
  else if deleteConfirmStep st =? 3 then
    (mkState false None None 0 EmptyString,
     Some (deleteStart st, deleteEnd st))
  else (st, None).

(** The handlers of the footer. *)
Inductive Event :=
  | OpenDeleteMode
  | CloseDeleteMode
  | ChangeDeleteStart (value : option Z)
  | ChangeDeleteEnd (value : option Z)
  | ClickDeleteFlow.

Definition handle (st : State) (ev : Event) : State * option (option Z * option Z) :=
  match ev with
  | OpenDeleteMode =>
      (mkState true (deleteStart st) (deleteEnd st) 1 (estimatedSize st), None)
  | CloseDeleteMode =>
      (mkState false (deleteStart st) (deleteEnd st) 0 (estimatedSize st), None)
  | ChangeDeleteStart v =>
      (mkState (isDeleteMode st) v (deleteEnd st) (deleteConfirmStep st)
               (estimatedSize st), None)
  | ChangeDeleteEnd v =>
      (mkState (isDeleteMode st) (deleteStart st) v (deleteConfirmStep st)
               (estimatedSize st), None)
  | ClickDeleteFlow => handleDeleteFlow st
  end.

(** Which controls of the footer are on screen and enabled: the entry
    button outside delete mode; the close button and the flow button inside
    it, the latter disabled at step 1 until both dates are chosen; the two
    date inputs at step 1 only. *)
Definition rendered (st : State) (ev : Event) : bool :=
  match ev with
  | OpenDeleteMode => negb (isDeleteMode st)
  | CloseDeleteMode => isDeleteMode st
  | ChangeDeleteStart _ | ChangeDeleteEnd _ =>
      isDeleteMode st && (deleteConfirmStep st =? 1)
  | ClickDeleteFlow =>
      isDeleteMode st &&
      negb ((deleteConfirmStep st =? 1) &&
            (bool_decide (deleteStart st = None) || bool_decide (deleteEnd st = None)))
  end.

(** [Array.from(new Set(xs))]: the distinct elements, in the order of their
    first occurrence. *)
Definition setOf (xs : list Z) : list Z :=
  foldl (fun seen x => if bool_decide (x ∈ seen) then seen else seen ++ [x]) [] xs.

(** [groupedData], for the two date inputs of the header.  Date strings
    compare like their day numbers. *)
Definition groupedData (filterStart filterEnd : option Z) : list Z :=
  let dates := setOf (map DailyLog.date logs ++ map ReviewNote.date reviews) in
  let dateArray := sortBy (fun a b => newDate_iso b - newDate_iso a) dates in
  let dateArray :=
    match filterStart with
    | Some fs => List.filter (fun d => d >=? fs) dateArray
    | None => dateArray
    end in
  match filterEnd with
  | Some fe => List.filter (fun d => d <=? fe) dateArray
  | None => dateArray
  end.

Definition getLogsForDate (date : Z) : list DailyLog.t :=
  sortBy (fun a b => DailyLog.timestamp b - DailyLog.timestamp a)
         (List.filter (fun l => DailyLog.date l =? date) logs).

Definition getReviewsForDate (date : Z) : list ReviewNote.t :=
  sortBy (fun a b => ReviewNote.timestamp b - ReviewNote.timestamp a)
         (List.filter (fun r => ReviewNote.date r =? date) reviews).

End Component.
End HistoryDrawer.

(** ** App.tsx *)

Module App.

(** [a < b] and [a > b] where [b] may be NaN: both are false on NaN. *)
Definition lt_nan (a : Z) (b : option Z) : bool :=
  match b with Some b => a <? b | None => false end.

Definition gt_nan (a : Z) (b : option Z) : bool :=
  match b with Some b => a >? b | None => false end.

(** A target identifier that passes [if (!state.selectedTargetId) return]. *)
Definition selected (state : AppState) : option string :=
  match selectedTargetId state with
  | Some targetId => if decide (targetId = EmptyString) then None else Some targetId
  | None => None
  end.

Definition currentLogs (state : AppState) : list DailyLog.t :=
  match selected state with
  | Some targetId => default [] (logs state !! targetId)
  | None => []
  end.

Definition currentReviews (state : AppState) : list ReviewNote.t :=
  match selected state with
  | Some targetId => default [] (reviews state !! targetId)
  | None => []
  end.

(** [state.targets.find(t => t.id === state.selectedTargetId)] *)
Definition currentTarget (state : AppState) : option ExamTarget.t :=
  match selectedTargetId state with
  | Some targetId =>
      List.find (fun t => bool_decide (ExamTarget.id t = targetId)) (targets state)
  | None => None
  end.

(** [handleCreateTarget], with the three fields of the modal, the result of
    [generateId()] and of [Date.now()]. *)
Definition handleCreateTarget (state : AppState) (newTargetName : string)
    (newTargetDate : option Z) (newTargetColor : string)
    (newId : string) (createdAt : Z) : AppState :=
  if decide (newTargetName = EmptyString) then state else
  match newTargetDate with
  | None => state
  | Some examDate =>
      let newTarget :=
        ExamTarget.mk newId newTargetName examDate newTargetColor createdAt in
      {| targets := targets state ++ [newTarget];
         selectedTargetId := Some newId;
         logs := logs state;
         reviews := reviews state |}
  end.

Definition handleDeleteTarget (state : AppState) (id : string) : AppState :=
  let newTargets :=
    List.filter (fun t => negb (bool_decide (ExamTarget.id t = id))) (targets state) in
  {| targets := newTargets;
     selectedTargetId :=
       match newTargets with
       | first :: _ => Some (ExamTarget.id first)
       | [] => None
       end;
     logs := logs state;
     reviews := reviews state |}.

(** The click on a target of the footer list. *)
Definition selectTarget (state : AppState) (t : ExamTarget.t) : AppState :=
  {| targets := targets state;
     selectedTargetId := Some (ExamTarget.id t);
     logs := logs state;
     reviews := reviews state |}.

(** [handleSaveLog], with the result of [generateId()]. *)
Definition handleSaveLog (state : AppState) (logData : DailyLog.t)
    (newId : string) : AppState :=
  match selected state with
  | None => state
  | Some targetId =>
      let newLog :=
        DailyLog.mk newId (DailyLog.date logData) (DailyLog.categories logData)
                    (DailyLog.timestamp logData) in
      let targetLogs := default [] (logs state !! targetId) in
      {| targets := targets state;
         selectedTargetId := selectedTargetId state;
         logs := <[targetId := targetLogs ++ [newLog]]> (logs state);
         reviews := reviews state |}
  end.

Section Component.
Variable tz : Z.

(** [handleSaveReview], with the result of [generateId()] and the instants
    read by [new Date()] and [Date.now()].  The [date] of a note is kept as
    the calendar day of its [yyyy-MM-dd HH:mm:ss] string. *)
Definition handleSaveReview (state : AppState) (content : string)
    (newId : string) (dateNow stampNow : Z) : AppState :=
  match selected state with
  | None => state
  | Some targetId =>
      let newReview :=
        ReviewNote.mk newId (format_yyyyMMdd tz dateNow) content targetId stampNow in
      let targetReviews := default [] (reviews state !! targetId) in
      {| targets := targets state;
         selectedTargetId := selectedTargetId state;
         logs := logs state;
         reviews := <[targetId := newReview :: targetReviews]> (reviews state) |}
  end.

(** The predicates of the two filters of [handleDeleteRange]: the items
    that are kept. *)
Definition keepLog (startTs endTs : option Z) (log : DailyLog.t) : bool :=
  let t := js_or (DailyLog.timestamp log) (newDate_iso (DailyLog.date log)) in
  lt_nan t startTs || gt_nan t endTs.

Definition keepReview (startTs endTs : option Z) (rev : ReviewNote.t) : bool :=
  let t := ReviewNote.timestamp rev in
  lt_nan t startTs || gt_nan t endTs.

Definition handleDeleteRange (state : AppState) (startDate endDate : option Z)
    : AppState :=
  match selected state with
  | None => state
  | Some targetId =>
      let startTs := setHours_0 tz <$> newDate_string startDate in
      let endTs := setHours_23_59_59_999 tz <$> newDate_string endDate in
      let targetLogs := default [] (logs state !! targetId) in
      let targetReviews := default [] (reviews state !! targetId) in
      let newLogs := List.filter (keepLog startTs endTs) targetLogs in
      let newReviews := List.filter (keepReview startTs endTs) targetReviews in
      {| targets := targets state;
         selectedTargetId := selectedTargetId state;
         logs := <[targetId := newLogs]> (logs state);
         reviews := <[targetId := newReviews]> (reviews state) |}
  end.

Variable serializedSize : list DailyLog.t -> list ReviewNote.t -> Z.
Variable renderBytes : Z -> string.

(** One event of the history drawer, mounted with
    [logs={currentLogs} reviews={currentReviews} onDeleteRange={handleDeleteRange}]. *)
Definition dispatch (state : AppState) (drawer : HistoryDrawer.State)
    (ev : HistoryDrawer.Event) : AppState * HistoryDrawer.State :=
  let '(drawer', call) :=
    HistoryDrawer.handle tz serializedSize renderBytes
      (currentLogs state) (currentReviews state) drawer ev in
  match call with
  | Some (startDate, endDate) => (handleDeleteRange state startDate endDate, drawer')
  | None => (state, drawer')
  end.

End Component.
End App.

(** ** services/storage.ts *)

Module Storage.

(** The values [JSON.parse] returns.  An object carries its own properties;
    an array is an object with elements. *)
#[warnings="-register-all"]
Inductive JsValue :=
  | JNull
  | JBool (b : bool)
  | JNumber (q : Q)
  | JString (s : string)
  | JObject (elements : option (list JsValue)) (props : gmap string JsValue).

Definition emptyObject : JsValue := JObject None ∅.

Definition DEFAULT_STATE : JsValue :=
  JObject None
    (<["targets"%string := JObject (Some []) ∅]>
       (<["selectedTargetId"%string := JNull]>
          (<["logs"%string := emptyObject]>
             (<["reviews"%string := emptyObject]> ∅)))).

(** [v.key] for an object: [None] is [undefined]. *)
Definition property (v : JsValue) (key : string) : option JsValue :=
  match v with
  | JObject _ props => props !! key
  | _ => None
  end.

(** [!v] for a property read: a missing property is [undefined]. *)
Definition falsy (v : option JsValue) : bool :=
  match v with
  | None => true
  | Some JNull => true
  | Some (JBool b) => negb b
  | Some (JNumber q) => Qeq_bool q (inject_Z 0)
  | Some (JString s) => bool_decide (s = EmptyString)
  | Some (JObject _ _) => false
  end.

(** What the [try] block of [loadState] meets: [localStorage.getItem]
    throws, or returns [null] or the empty string, or [JSON.parse] throws
    on the stored text, or returns a value. *)
Inductive StorageRead :=
  | GetItemThrows
  | NoItem
  | ParseThrows
  | Parsed (state : JsValue).

(** [loadState].  The module is strict code: reading a property of [null]
    and assigning a property of a primitive both throw a TypeError, which
    the [catch] turns into [DEFAULT_STATE]. *)
Definition loadState (r : StorageRead) : JsValue :=
  match r with
  | GetItemThrows => DEFAULT_STATE
  | NoItem => DEFAULT_STATE
  | ParseThrows => DEFAULT_STATE
  | Parsed state =>
      match state with
      | JObject elements props =>
          if falsy (props !! "reviews"%string)
          then JObject elements (<["reviews"%string := emptyObject]> props)
          else state
      | JNull => DEFAULT_STATE
      | JBool _ | JNumber _ | JString _ => DEFAULT_STATE
      end
  end.

End Storage.

(** ** components/DailyCheckIn.tsx *)

Module DailyCheckIn.

Inductive Field := FTotal | FCorrect | FDuration.

(** The values of the [CategoryId] enum. *)
Definition categoryKey (cat : CategoryId) : string :=
  match cat with
  | Speech => "speech"
  | Politics => "politics"
  | Common => "common"
  | Logic => "logic"
  | Data => "data"
  end%string.

(** The key [`${cat}-correct`] of the [errors] object. *)
Definition errorKey (cat : CategoryId) : string :=
  (categoryKey cat ++ "-correct")%string.

(** [{ ...prev[cat], [field]: numVal }] *)
Definition setField (r : QuestionRecord) (field : Field) (numVal : Z) : QuestionRecord :=
  match field with
  | FTotal => {| total := numVal; correct := correct r; duration := duration r |}
  | FCorrect => {| total := total r; correct := numVal; duration := duration r |}
  | FDuration => {| total := total r; correct := correct r; duration := numVal |}
  end.

(** [{ ...prev, [cat]: r }] *)
Definition setCategory (c : Categories) (cat : CategoryId) (r : QuestionRecord) : Categories :=
  match cat with
  | Speech => mkCategories r (politics c) (common c) (logic c) (data c)
  | Politics => mkCategories (speech c) r (common c) (logic c) (data c)
  | Common => mkCategories (speech c) (politics c) r (logic c) (data c)
  | Logic => mkCategories (speech c) (politics c) (common c) r (data c)
  | Data => mkCategories (speech c) (politics c) (common c) (logic c) r
  end.

Record State := mkState {
  data : Categories;
  errors : gmap string bool
}.

Definition EmptyRecord : QuestionRecord :=
  {| total := 0; correct := 0; duration := 0 |}.

Definition initialState : State :=
  {| data := mkCategories EmptyRecord EmptyRecord EmptyRecord EmptyRecord EmptyRecord;
     errors := ∅ |}.

(** [handleChange]; [parsed] is the result of [parseInt(value)], [None] for
    NaN. *)
Definition handleChange (st : State) (cat : CategoryId) (field : Field)
    (parsed : option Z) : State :=
  let numVal := js_or (default 0 parsed) 0 in
  let newErrors :=
    match field with
    | FCorrect =>
        if numVal >? total (category (data st) cat)
        then <[errorKey cat := true]> (errors st)
        else delete (errorKey cat) (errors st)
    | FTotal =>
        if numVal <? correct (category (data st) cat)
        then <[errorKey cat := true]> (errors st)
        else delete (errorKey cat) (errors st)
    | FDuration => errors st
    end in
  {| data := setCategory (data st) cat (setField (category (data st) cat) field numVal);
     errors := newErrors |}.

Definition calculateDailyAccuracy (st : State) : Z :=
  let totalQ := sumTotal (data st) in
  let totalC := sumCorrect (data st) in
  if totalQ =? 0 then 0
  else Math_round ((inject_Z totalC / inject_Z totalQ) * inject_Z 100)%Q.

Section Submit.
Variable tz : Z.

(** [handleSubmit]: the log handed to [onSave], if any, with the result of
    [generateId()] and the instants read by [new Date()] and [Date.now()]. *)
Definition handleSubmit (st : State) (newId : string) (dateNow stampNow : Z)
    : option DailyLog.t :=
  let hasErrors := (0 <? size (errors st))%nat in
  if hasErrors then None else
  let totalQuestions :=
    foldl (fun acc curr => acc + total curr) 0 (Object_values (data st)) in
  if totalQuestions =? 0 then None else
  Some (DailyLog.mk newId (format_yyyyMMdd tz dateNow) (data st) stampNow).

End Submit.
End DailyCheckIn.

(** ** Vocabulary of the properties *)

(** The accumulated [total] and [correct] of one category over a log set. *)
Definition categoryTotal (cat : CategoryId) (ls : list DailyLog.t) : Z :=
  foldr (fun log acc => total (category (DailyLog.categories log) cat) + acc) 0 ls.

Definition categoryCorrect (cat : CategoryId) (ls : list DailyLog.t) : Z :=
  foldr (fun log acc => correct (category (DailyLog.categories log) cat) + acc) 0 ls.

(** [(correct / total) * 100], the accuracy that [getWeakestCategory] compares. *)
Definition percentage (t c : Z) : Q := ((inject_Z c / inject_Z t) * inject_Z 100)%Q.

(** The position of a category in the enumeration order. *)
Definition categoryIndex (cat : CategoryId) : nat :=
  match cat with
  | Speech => 0 | Politics => 1 | Common => 2 | Logic => 3 | Data => 4
  end%nat.

(** The [totals] object with all five keys. *)
Definition totalsOf (T C : CategoryId -> Z) : list (CategoryId * (Z * Z)) :=
  map (fun cat => (cat, (T cat, C cat))) categoryOrder.



(** A calendar day with at least one log. *)
Definition activeDay (ls : list DailyLog.t) (day : Z) : Prop :=
  exists log, log ∈ ls /\ DailyLog.date log = day.

(** The [date] of a log is the local calendar day of its [timestamp], as
    DailyCheckIn creates it. *)
Definition wellDated (tz : Z) (log : DailyLog.t) : Prop :=
  DailyLog.date log = format_yyyyMMdd tz (DailyLog.timestamp log).


(** The attempts and the correct answers of one log, under a category
    selection ([None] is all five categories). *)
Definition totalOf (sel : option CategoryId) (log : DailyLog.t) : Z :=
  match sel with
  | None =>
      foldr Z.add 0
        (map (fun k => total (category (DailyLog.categories log) k)) categoryOrder)
  | Some k => total (category (DailyLog.categories log) k)
  end.

Definition correctOf (sel : option CategoryId) (log : DailyLog.t) : Z :=
  match sel with
  | None =>
      foldr Z.add 0
        (map (fun k => correct (category (DailyLog.categories log) k)) categoryOrder)
  | Some k => correct (category (DailyLog.categories log) k)
  end.

(** Their sums over a set of logs. *)
Definition totalOver (sel : option CategoryId) (ls : list DailyLog.t) : Z :=
  foldr Z.add 0 (map (totalOf sel) ls).

Definition correctOver (sel : option CategoryId) (ls : list DailyLog.t) : Z :=
  foldr Z.add 0 (map (correctOf sel) ls).

(** The logs of one calendar day. *)
Definition logsOn (ls : list DailyLog.t) (day : Z) : list DailyLog.t :=
  List.filter (fun l => DailyLog.date l =? day) ls.


Definition byTimestamp (a b : DailyLog.t) : Prop :=
  DailyLog.timestamp a <= DailyLog.timestamp b.

(** What holds of the pair [(minAcc, weakestKey)] after the entries [l]:
    with no key chosen every entry over 10 attempts is at 101 percent or
    above; a chosen key is the first entry with the least percentage. *)
Definition weakestInv (l : list (CategoryId * (Z * Z)))
    (st : Q * option CategoryId) : Prop :=
  match snd st with
  | None =>
      fst st = inject_Z 101 /\
      forall j k t c, l !! j = Some (k, (t, c)) -> 10 < t ->
        (inject_Z 101 <= percentage t c)%Q
  | Some key =>
      exists i t c,
        l !! i = Some (key, (t, c)) /\ 10 < t /\
        fst st = percentage t c /\ (fst st < inject_Z 101)%Q /\
        forall j k' t' c', l !! j = Some (k', (t', c')) -> 10 < t' ->
          (fst st <= percentage t' c')%Q /\
          ((j < i)%nat -> (fst st < percentage t' c')%Q)
  end.

(** ** Sample data *)

(** [EmptyRecord] of DailyCheckIn. *)
Definition EmptyRecord : QuestionRecord :=
  {| total := 0; correct := 0; duration := 0 |}.

Definition emptyCategories : Categories :=
  {| speech := EmptyRecord; politics := EmptyRecord; common := EmptyRecord;
     logic := EmptyRecord; data := EmptyRecord |}.

(** A session that only practised the first category. *)
Definition speechSession (day ts t c : Z) : DailyLog.t :=
  DailyLog.mk EmptyString day
    {| speech := {| total := t; correct := c; duration := 0 |};
       politics := EmptyRecord; common := EmptyRecord;
       logic := EmptyRecord; data := EmptyRecord |}
    ts.

(** A session that only practised the last category. *)
Definition dataSession (day ts t c : Z) : DailyLog.t :=
  DailyLog.mk EmptyString day
    {| speech := EmptyRecord; politics := EmptyRecord; common := EmptyRecord;
       logic := EmptyRecord;
       data := {| total := t; correct := c; duration := 0 |} |}
    ts.

(** A review note written at the instant [ts]. *)
Definition noteAt (day ts : Z) : ReviewNote.t :=
  ReviewNote.mk EmptyString day "note"%string "exam"%string ts.

(** One target, ["exam"], selected, with the given partition; a second
    target ["other"] holds one log of its own. *)
Definition sampleState (ls : list DailyLog.t) (rs : list ReviewNote.t) : AppState :=
  {| targets := [ExamTarget.mk "exam"%string "exam"%string 20000 EmptyString 0;
                 ExamTarget.mk "other"%string "other"%string 20000 EmptyString 0];
     selectedTargetId := Some "exam"%string;
     logs := <["exam"%string := ls]> (<["other"%string := [speechSession 19724 1 5 5]]> ∅);
     reviews := <["exam"%string := rs]> ∅ |}.

(** The drawer at the final confirmation of a chosen range. *)
Definition finalConfirm (startDay endDay : Z) : HistoryDrawer.State :=
  HistoryDrawer.mkState true (Some startDay) (Some endDay) 3 "1 KB"%string.

(** 2024-01-02, as a day number. *)
Definition jan2 : Z := 19724.

(** Local time five hours behind UTC, and eight hours ahead. *)
Definition utcMinus5 : Z := -5 * 3600 * 1000.

Definition utcPlus8 : Z := 8 * 3600 * 1000.

(** The selection is empty or names a listed target. *)
Definition selectionListed (st : AppState) : Prop :=
  match selectedTargetId st with
  | None => True
  | Some targetId => exists t, t ∈ targets st /\ ExamTarget.id t = targetId
  end.

(** The log that [handleSaveLog] stores: the check-in data under a new id. *)
Definition storedLog (logData : DailyLog.t) (newId : string) : DailyLog.t :=
  DailyLog.mk newId (DailyLog.date logData) (DailyLog.categories logData)
              (DailyLog.timestamp logData).

(** The sum of one field over the five records of a log, and over a set of
    logs. *)
Definition recordSum (f : QuestionRecord -> Z) (log : DailyLog.t) : Z :=
  foldr Z.add 0 (map (fun k => f (category (DailyLog.categories log) k)) categoryOrder).

Definition logsSum (f : QuestionRecord -> Z) (ls : list DailyLog.t) : Z :=
  foldr Z.add 0 (map (recordSum f) ls).

(** One event of the deletion footer: a control that is not on screen, or is
    disabled, cannot be used. *)
Definition fire (tz : Z) (size : list DailyLog.t -> list ReviewNote.t -> Z)
    (render : Z -> string) (s : AppState * HistoryDrawer.State)
    (ev : HistoryDrawer.Event) : AppState * HistoryDrawer.State :=
  if HistoryDrawer.rendered (snd s) ev
  then App.dispatch tz size render (fst s) (snd s) ev
  else s.

(** What holds of the footer in every state the user can reach. *)
Definition flowInv (tz : Z) (size : list DailyLog.t -> list ReviewNote.t -> Z)
    (render : Z -> string) (s : AppState * HistoryDrawer.State) : Prop :=
  let d := snd s in
  let step := HistoryDrawer.deleteConfirmStep d in
  (HistoryDrawer.isDeleteMode d = false /\ step = 0) \/
  (HistoryDrawer.isDeleteMode d = true /\ step = 1) \/
  (HistoryDrawer.isDeleteMode d = true /\ (step = 2 \/ step = 3) /\
   is_Some (HistoryDrawer.deleteStart d) /\ is_Some (HistoryDrawer.deleteEnd d) /\
   (step = 3 ->
    HistoryDrawer.estimatedSize d
    = HistoryDrawer.calculateDataSize tz size render
        (App.currentLogs (fst s)) (App.currentReviews (fst s))
        (HistoryDrawer.deleteStart d) (HistoryDrawer.deleteEnd d))).

(** The check-in form after a series of edits of its inputs. *)
Definition checkInRun (changes : list (CategoryId * DailyCheckIn.Field * option Z))
    : DailyCheckIn.State :=
  foldl (fun st ch => DailyCheckIn.handleChange st (fst (fst ch)) (snd (fst ch)) (snd ch))
        DailyCheckIn.initialState changes.

(** The [errors] object marks exactly the categories with more correct
    answers than questions. *)
Definition errorsTrack (st : DailyCheckIn.State) : Prop :=
  forall key, is_Some (DailyCheckIn.errors st !! key) <->
    exists cat, key = DailyCheckIn.errorKey cat /\
      total (category (DailyCheckIn.data st) cat)
      < correct (category (DailyCheckIn.data st) cat).

(** No field of the form is negative. *)
Definition formNonneg (st : DailyCheckIn.State) : Prop :=
  forall cat, 0 <= total (category (DailyCheckIn.data st) cat) /\
              0 <= correct (category (DailyCheckIn.data st) cat).

(** Every record of the log has between 0 and [total] correct answers. *)
Definition validLog (log : DailyLog.t) : Prop :=
  forall cat, 0 <= correct (category (DailyLog.categories log) cat)
              <= total (category (DailyLog.categories log) cat).

(* ================================================================== *)
(** * Part II: properties                                               *)
(* ================================================================== *)

(** ** The clock *)

Lemma msPerDay_value : msPerDay = 86400000.
Proof. reflexivity. Qed.

Lemma local_day_spec (tz t : Z) :
  format_yyyyMMdd tz t * msPerDay - tz <= t
  < format_yyyyMMdd tz t * msPerDay - tz + msPerDay.
Proof.
  unfold format_yyyyMMdd. rewrite msPerDay_value.
  pose proof (Z.div_mod (t + tz) 86400000 ltac:(lia)).
  pose proof (Z.mod_pos_bound (t + tz) 86400000 ltac:(lia)).
  lia.
Qed.

Lemma local_day_unique (tz t day : Z) :
  day * msPerDay - tz <= t < day * msPerDay - tz + msPerDay ->
  format_yyyyMMdd tz t = day.
Proof.
  intros H. pose proof (local_day_spec tz t) as Hs.
  rewrite msPerDay_value in *. lia.
Qed.

Lemma format_newDate_local (tz day : Z) :
  format_yyyyMMdd tz (newDate_local tz day) = day.
Proof.
  apply local_day_unique. unfold newDate_local. rewrite msPerDay_value. lia.
Qed.

Lemma getStartOfDay_parseLocal (tz now day : Z) :
  getStartOfDay tz (parseLocal tz now (Some day)) = day * msPerDay - tz.
Proof.
  unfold getStartOfDay, setHours_0, parseLocal.
  rewrite format_newDate_local. reflexivity.
Qed.

Lemma getEndOfDay_parseLocal (tz now day : Z) :
  getEndOfDay tz (parseLocal tz now (Some day))
  = day * msPerDay + (msPerDay - 1) - tz.
Proof.
  unfold getEndOfDay, setHours_23_59_59_999, parseLocal.
  rewrite format_newDate_local. reflexivity.
Qed.

(** East of Greenwich (and at it) the UTC midnight of a date falls on the
    same local date. *)
Lemma format_newDate_iso_east (tz day : Z) :
  0 <= tz < msPerDay -> format_yyyyMMdd tz (newDate_iso day) = day.
Proof.
  intros H. apply local_day_unique. unfold newDate_iso.
  rewrite msPerDay_value in *. lia.
Qed.

(** West of Greenwich it falls on the day before. *)
Lemma format_newDate_iso_west (tz day : Z) :
  - msPerDay <= tz < 0 -> format_yyyyMMdd tz (newDate_iso day) = day - 1.
Proof.
  intros H. apply local_day_unique. unfold newDate_iso.
  rewrite msPerDay_value in *. lia.
Qed.

(** An instant lies between the local midnight of [startDay] and the local
    end of [endDay] exactly when its local day lies between the two. *)
Lemma between_days (tz t startDay endDay : Z) :
  startDay * msPerDay - tz <= t <= endDay * msPerDay + (msPerDay - 1) - tz
  <-> startDay <= format_yyyyMMdd tz t <= endDay.
Proof.
  pose proof (local_day_spec tz t) as Hs. rewrite msPerDay_value in *. lia.
Qed.

(** ** Sorting *)

Lemma insertBy_perm {A} (cmp : A -> A -> Z) (x : A) (l : list A) :
  insertBy cmp x l ≡ₚ x :: l.
Proof.
  induction l as [|y l IH]; simpl; [reflexivity|].
  destruct (cmp x y <=? 0); [reflexivity|].
  rewrite IH. apply Permutation_swap.
Qed.

Lemma sortBy_perm {A} (cmp : A -> A -> Z) (l : list A) : sortBy cmp l ≡ₚ l.
Proof.
  induction l as [|x l IH]; simpl; [reflexivity|].
  fold (sortBy cmp l). rewrite insertBy_perm, IH. reflexivity.
Qed.

Section SortBy.
Context {A : Type} (cmp : A -> A -> Z) (R : A -> A -> Prop).
Hypothesis cmp_R : forall a b, cmp a b <= 0 <-> R a b.
Hypothesis R_total : forall a b, R a b \/ R b a.
Hypothesis R_trans : forall a b c, R a b -> R b c -> R a c.

Lemma insertBy_sorted (x : A) (l : list A) :
  StronglySorted R l -> StronglySorted R (insertBy cmp x l).
Proof.
  induction 1 as [|y l Hs IH Hy]; simpl.
  - repeat constructor.
  - destruct (Z.leb_spec (cmp x y) 0) as [Hc|Hc].
    + apply cmp_R in Hc. constructor; [constructor; assumption|].
      constructor; [assumption|].
      eapply Forall_impl; [exact Hy|]. intros z Hz. eapply R_trans; eassumption.
    + assert (Hyx : R y x).
      { destruct (R_total x y) as [H|H]; [apply cmp_R in H; lia | exact H]. }
      constructor; [exact IH|].
      rewrite insertBy_perm. constructor; assumption.
Qed.

Lemma sortBy_sorted (l : list A) : StronglySorted R (sortBy cmp l).
Proof.
  induction l as [|x l IH]; simpl; [constructor|].
  apply insertBy_sorted, IH.
Qed.

End SortBy.


Lemma sortBy_descending (ls : list DailyLog.t) :
  StronglySorted (fun a b => byTimestamp b a)
    (sortBy (fun a b => DailyLog.timestamp b - DailyLog.timestamp a) ls).
Proof.
  apply sortBy_sorted; unfold byTimestamp; intros; lia.
Qed.

(** ** Sums *)

Lemma values_fold (f : QuestionRecord -> Z) (c : Categories) (acc : Z) :
  foldl (fun a r => a + f r) acc (Object_values c)
  = acc + foldr Z.add 0 (map (fun k => f (category c k)) categoryOrder).
Proof. unfold Object_values, categoryOrder. cbn. lia. Qed.

Lemma logsTotal_totalOver (ls : list DailyLog.t) :
  logsTotal ls = totalOver None ls /\ logsCorrect ls = correctOver None ls.
Proof.
  unfold logsTotal, logsCorrect, totalOver, correctOver.
  assert (G : forall a b,
    foldl (fun acc log => foldl (fun acc r => acc + total r) acc
                                (Object_values (DailyLog.categories log))) a ls
      = a + foldr Z.add 0 (map (totalOf None) ls) /\
    foldl (fun acc log => foldl (fun acc r => acc + correct r) acc
                                (Object_values (DailyLog.categories log))) b ls
      = b + foldr Z.add 0 (map (correctOf None) ls)).
  { induction ls as [|log ls IH]; intros a b; cbn [foldl map foldr]; [lia|].
    destruct (IH (foldl (fun acc r => acc + total r) a
                        (Object_values (DailyLog.categories log)))
                 (foldl (fun acc r => acc + correct r) b
                        (Object_values (DailyLog.categories log)))) as [-> ->].
    rewrite !values_fold. unfold totalOf, correctOf. lia. }
  destruct (G 0 0) as [-> ->]. lia.
Qed.

Lemma sumTotal_totalOf (log : DailyLog.t) :
  sumTotal (DailyLog.categories log) = totalOf None log /\
  sumCorrect (DailyLog.categories log) = correctOf None log.
Proof.
  unfold sumTotal, sumCorrect. rewrite !values_fold. unfold totalOf, correctOf. lia.
Qed.

Lemma selected_totalOf (sel : option CategoryId) (log : DailyLog.t) (acc : Z) :
  ReviewSection.selectedTotal sel log acc = acc + totalOf sel log /\
  ReviewSection.selectedCorrect sel log acc = acc + correctOf sel log.
Proof.
  unfold ReviewSection.selectedTotal, ReviewSection.selectedCorrect, totalOf, correctOf.
  destruct sel; [auto|]. rewrite !values_fold. auto.
Qed.

Lemma selected_totalOver (sel : option CategoryId) (ls : list DailyLog.t) :
  foldl (fun acc log => ReviewSection.selectedTotal sel log acc) 0 ls
    = totalOver sel ls /\
  foldl (fun acc log => ReviewSection.selectedCorrect sel log acc) 0 ls
    = correctOver sel ls.
Proof.
  unfold totalOver, correctOver.
  assert (G : forall a b,
    foldl (fun acc log => ReviewSection.selectedTotal sel log acc) a ls
      = a + foldr Z.add 0 (map (totalOf sel) ls) /\
    foldl (fun acc log => ReviewSection.selectedCorrect sel log acc) b ls
      = b + foldr Z.add 0 (map (correctOf sel) ls)).
  { induction ls as [|log ls IH]; intros a b; cbn [foldl map foldr]; [lia|].
    destruct (IH (ReviewSection.selectedTotal sel log a)
                 (ReviewSection.selectedCorrect sel log b)) as [-> ->].
    destruct (selected_totalOf sel log a) as [-> _].
    destruct (selected_totalOf sel log b) as [_ ->]. lia. }
  destruct (G 0 0) as [-> ->]. lia.
Qed.



(** ** Accuracy *)

(** The rounded percentage, in integer arithmetic. *)
Lemma accuracy_div (t c : Z) :
  0 < t -> accuracy t c = (200 * c + t) `div` (2 * t).
Proof.
  intros Ht. unfold accuracy, Math_round.
  destruct (Z.gtb_spec t 0) as [_|]; [|lia].
  destruct t as [|p|p]; try lia.
  assert (E : ((inject_Z c / inject_Z (Z.pos p)) * inject_Z 100 + (1 # 2)
               == (200 * c + Z.pos p) # (2 * p))%Q).
  { unfold Qeq, Qdiv, Qmult, Qplus, Qinv, inject_Z. simpl. lia. }
  rewrite E. unfold Qfloor. reflexivity.
Qed.

Lemma accuracy_zero_total (t c : Z) : t <= 0 -> accuracy t c = 0.
Proof.
  intros Ht. unfold accuracy. destruct (Z.gtb_spec t 0); [lia | reflexivity].
Qed.

Lemma accuracy_nonneg (t c : Z) : 0 <= c -> 0 <= accuracy t c.
Proof.
  intros Hc. destruct (Z_lt_le_dec 0 t) as [Ht|Ht].
  - rewrite accuracy_div by assumption. apply Z.div_pos; lia.
  - rewrite accuracy_zero_total by assumption. lia.
Qed.

Lemma accuracy_le_100 (t c : Z) : c <= t -> accuracy t c <= 100.
Proof.
  intros Hc. destruct (Z_lt_le_dec 0 t) as [Ht|Ht].
  - rewrite accuracy_div by assumption.
    apply Z.lt_succ_r, Z.div_lt_upper_bound; lia.
  - rewrite accuracy_zero_total by assumption. lia.
Qed.





(** ** Per-category totals *)

Lemma totalsOf_ext (T C T' C' : CategoryId -> Z) :
  (forall k, T k = T' k) -> (forall k, C k = C' k) ->
  totalsOf T C = totalsOf T' C'.
Proof.
  intros HT HC. unfold totalsOf. apply map_ext. intros k.
  rewrite HT, HC. reflexivity.
Qed.

Lemma accumulate_from_totalsOf (ls : list DailyLog.t) (T C : CategoryId -> Z) :
  foldl (fun totals log =>
           foldl (fun totals kv =>
                    StatsDashboard.addToTotals totals (fst kv) (snd kv))
                 totals (Object_entries (DailyLog.categories log)))
        (totalsOf T C) ls
  = totalsOf (fun k => T k + categoryTotal k ls)
             (fun k => C k + categoryCorrect k ls).
Proof.
  revert T C. induction ls as [|log ls IH]; intros T C.
  - apply totalsOf_ext; intros k; simpl; lia.
  - cbn [foldl].
    change (foldl _ (totalsOf T C) (Object_entries (DailyLog.categories log)))
      with (totalsOf
              (fun k => T k + total (category (DailyLog.categories log) k))
              (fun k => C k + correct (category (DailyLog.categories log) k))).
    rewrite IH. apply totalsOf_ext; intros k; simpl; lia.
Qed.

Lemma accumulateTotals_cons (log : DailyLog.t) (ls : list DailyLog.t) :
  StatsDashboard.accumulateTotals (log :: ls)
  = totalsOf (fun k => categoryTotal k (log :: ls))
             (fun k => categoryCorrect k (log :: ls)).
Proof.
  unfold StatsDashboard.accumulateTotals. cbn [foldl].
  change (foldl _ [] (Object_entries (DailyLog.categories log)))
    with (totalsOf
            (fun k => 0 + total (category (DailyLog.categories log) k))
            (fun k => 0 + correct (category (DailyLog.categories log) k))).
  rewrite accumulate_from_totalsOf. apply totalsOf_ext; intros k; simpl; lia.
Qed.

Lemma categoryOrder_lookup (k : CategoryId) (i : nat) :
  categoryOrder !! i = Some k <-> i = categoryIndex k.
Proof.
  unfold categoryOrder.
  do 5 (destruct i as [|i]; [destruct k; cbn; split; intros H; (discriminate H || reflexivity)|]).
  destruct k; cbn; split; intros H; discriminate H.
Qed.

Lemma totalsOf_lookup (T C : CategoryId -> Z) (i : nat) (k : CategoryId) (t c : Z) :
  totalsOf T C !! i = Some (k, (t, c)) <->
  i = categoryIndex k /\ t = T k /\ c = C k.
Proof.
  unfold totalsOf. rewrite list_lookup_fmap. split.
  - destruct (categoryOrder !! i) as [k'|] eqn:E; simpl; [|congruence].
    intros [= -> <- <-]. apply categoryOrder_lookup in E. auto.
  - intros (-> & -> & ->).
    pose proof (proj2 (categoryOrder_lookup k _) eq_refl) as ->. reflexivity.
Qed.



(** ** The weakest category *)

Lemma weakest_fold_inv (l : list (CategoryId * (Z * Z))) :
  weakestInv l (foldl StatsDashboard.weakestStep (inject_Z 101, None) l).
Proof.
  induction l as [|[key [t c]] l IH] using rev_ind.
  - simpl. split; [reflexivity|]. intros j k t c H. discriminate H.
  - rewrite foldl_app. cbn [foldl].
    destruct (foldl StatsDashboard.weakestStep (inject_Z 101, None) l) as [m w].
    unfold StatsDashboard.weakestStep.
    fold (percentage t c).
    assert (Hsnoc : forall j k' t' c',
               (l ++ [(key, (t, c))]) !! j = Some (k', (t', c')) ->
               l !! j = Some (k', (t', c')) /\ (j < length l)%nat \/
               j = length l /\ k' = key /\ t' = t /\ c' = c).
    { intros j k' t' c' H. destruct (decide (j < length l)%nat) as [Hj|Hj].
      - rewrite lookup_app_l in H by assumption. auto.
      - rewrite lookup_app_r in H by lia.
        destruct (j - length l)%nat as [|n] eqn:E; simpl in H; [|discriminate H].
        injection H as <- <- <-. right. repeat split; lia. }
    destruct (Z.gtb_spec t 10) as [Ht|Ht].
    + destruct (Qlt_le_dec (percentage t c) m) as [Hlt|Hle].
      * (* the new entry becomes the weakest *)
        unfold weakestInv. cbn [fst snd].
        exists (length l), t, c.
        assert (Hm : (m <= inject_Z 101)%Q).
        { unfold weakestInv in IH. cbn [fst snd] in IH. destruct w.
          - destruct IH as (? & ? & ? & _ & _ & _ & H & _). apply Qlt_le_weak, H.
          - destruct IH as [-> _]. apply Qle_refl. }
        split; [rewrite lookup_app_r by lia; rewrite Nat.sub_diag; reflexivity|].
        split; [lia|]. split; [reflexivity|].
        split; [eapply Qlt_le_trans; eassumption|].
        intros j k' t' c' Hj Ht'.
        destruct (Hsnoc _ _ _ _ Hj) as [[Hl Hlen]|(-> & -> & -> & ->)].
        -- assert (Hge : (m <= percentage t' c')%Q).
           { unfold weakestInv in IH. cbn [fst snd] in IH. destruct w.
             - destruct IH as (? & ? & ? & _ & _ & _ & _ & H).
               apply (H _ _ _ _ Hl Ht').
             - destruct IH as [-> H]. apply (H _ _ _ _ Hl Ht'). }
           split; [apply Qlt_le_weak|intros _]; eapply Qlt_le_trans; eassumption.
        -- split; [apply Qle_refl | lia].
      * (* the state is kept *)
        unfold weakestInv in *. cbn [fst snd] in *. destruct w as [k0|].
        -- destruct IH as (i & t0 & c0 & Hi & Ht0 & Hm & Hlt & Hall).
           exists i, t0, c0.
           split; [rewrite lookup_app_l by (eapply lookup_lt_Some; eassumption); assumption|].
           repeat (split; [assumption|]).
           intros j k' t' c' Hj Ht'.
           destruct (Hsnoc _ _ _ _ Hj) as [[Hl Hlen]|(-> & -> & -> & ->)].
           ++ apply (Hall _ _ _ _ Hl Ht').
           ++ split; [assumption|]. intros Hji.
              apply lookup_lt_Some in Hi. lia.
        -- destruct IH as [-> Hall]. split; [reflexivity|].
           intros j k' t' c' Hj Ht'.
           destruct (Hsnoc _ _ _ _ Hj) as [[Hl Hlen]|(-> & -> & -> & ->)].
           ++ apply (Hall _ _ _ _ Hl Ht').
           ++ assumption.
    + (* 10 attempts or fewer: the entry is skipped *)
      unfold weakestInv in *. cbn [fst snd] in *. destruct w as [k0|].
      * destruct IH as (i & t0 & c0 & Hi & Ht0 & Hm & Hlt & Hall).
        exists i, t0, c0.
        split; [rewrite lookup_app_l by (eapply lookup_lt_Some; eassumption); assumption|].
        repeat (split; [assumption|]).
        intros j k' t' c' Hj Ht'.
        destruct (Hsnoc _ _ _ _ Hj) as [[Hl Hlen]|(-> & -> & -> & ->)].
        -- apply (Hall _ _ _ _ Hl Ht').
        -- lia.
      * destruct IH as [-> Hall]. split; [reflexivity|].
        intros j k' t' c' Hj Ht'.
        destruct (Hsnoc _ _ _ _ Hj) as [[Hl Hlen]|(-> & -> & -> & ->)].
        -- apply (Hall _ _ _ _ Hl Ht').
        -- lia.
Qed.

Lemma percentage_pos (t c : Z) : 0 < t -> 0 < c -> (0 < percentage t c)%Q.
Proof.
  intros Ht Hc. destruct t as [|t|t]; try lia. destruct c as [|c|c]; try lia.
  unfold percentage, Qlt, Qdiv, Qmult, Qinv, inject_Z. simpl. lia.
Qed.

Lemma percentage_zero (t : Z) : (percentage t 0 == 0)%Q.
Proof.
  unfold percentage, Qeq, Qdiv, Qmult, inject_Z. simpl. lia.
Qed.

Lemma getWeakestCategory_nil : StatsDashboard.getWeakestCategory [] = None.
Proof. reflexivity. Qed.

Lemma getWeakestCategory_inv (ls : list DailyLog.t) :
  exists m,
    StatsDashboard.getWeakestCategory ls = snd m /\
    weakestInv (totalsOf (fun k => categoryTotal k ls)
                         (fun k => categoryCorrect k ls)) m.
Proof.
  destruct ls as [|log ls].
  - exists (inject_Z 101, None). split; [reflexivity|].
    split; [reflexivity|]. intros j k t c Hj Ht.
    apply totalsOf_lookup in Hj. destruct Hj as (_ & -> & _). simpl in Ht. lia.
  - unfold StatsDashboard.getWeakestCategory. cbn [length Nat.eqb].
    rewrite accumulateTotals_cons.
    eexists. split; [reflexivity|]. apply weakest_fold_inv.
Qed.

(** C6, as stated, fails: the first category has 11 attempts and is the only
    eligible one, yet nothing is returned, because its 12 correct answers
    put it above the initial [minAcc = 101]. *)
Lemma weakest_none_though_eligible :
  10 < categoryTotal Speech [speechSession 0 1 11 12] /\
  (forall k, 10 < categoryTotal k [speechSession 0 1 11 12] -> k = Speech) /\
  StatsDashboard.getWeakestCategory [speechSession 0 1 11 12] = None.
Proof.
  split; [reflexivity|]. split; [|reflexivity].
  intros k. destruct k; vm_compute; intros H; (reflexivity || discriminate H).
Qed.

(** C6 (amended).  [getWeakestCategory] accumulates total and correct per
    category over all logs.  A category can be returned only if its total is
    strictly above 10 and its accumulated accuracy is below 101 percent
    (which every category with [correct <= total] is); among these the one
    with the lowest accuracy is returned, the first in the enumeration order
    on a tie; nothing is returned when there is no such category or the log
    set is empty.  A total of exactly 10 is never returned; a total of 11
    with 0 correct is returned when every other eligible category has a
    correct answer. *)
Theorem weakest_category_spec (ls : list DailyLog.t) :
  let T := fun k => categoryTotal k ls in
  let C := fun k => categoryCorrect k ls in
  let P := fun k => percentage (T k) (C k) in
  let res := StatsDashboard.getWeakestCategory ls in
  (ls = [] -> res = None) /\
  (forall k, res = Some k ->
     10 < T k /\ (P k < inject_Z 101)%Q /\
     forall k', 10 < T k' ->
       (P k <= P k')%Q /\
       ((P k' == P k)%Q -> (categoryIndex k <= categoryIndex k')%nat)) /\
  (res = None <-> forall k, 10 < T k -> (inject_Z 101 <= P k)%Q) /\
  (forall k, T k = 10 -> res <> Some k) /\
  (forall k, T k = 11 -> C k = 0 ->
     (forall k', k' <> k -> 10 < T k' -> 0 < C k') -> res = Some k).
Proof.
  intros T C P res.
  assert (Hsome : forall k, res = Some k ->
     10 < T k /\ (P k < inject_Z 101)%Q /\
     forall k', 10 < T k' ->
       (P k <= P k')%Q /\
       ((P k' == P k)%Q -> (categoryIndex k <= categoryIndex k')%nat)).
  { intros k Hres.
    destruct (getWeakestCategory_inv ls) as ([m w] & Hw & Hinv).
    fold res in Hw. cbn [snd] in Hw. rewrite Hres in Hw. subst w.
    unfold weakestInv in Hinv. cbn [fst snd] in Hinv.
    destruct Hinv as (i & t & c & Hi & Ht & Hm & Hlt & Hall).
    apply totalsOf_lookup in Hi. destruct Hi as (-> & -> & ->).
    fold (T k) in *. fold (C k) in *. fold (P k) in *. subst m.
    split; [assumption|]. split; [assumption|].
    intros k' Hk'.
    destruct (Hall (categoryIndex k') k' (T k') (C k')) as [Hle Hstrict].
    { apply totalsOf_lookup. auto. }
    { assumption. }
    split; [exact Hle|]. intros Heq.
    destruct (decide (categoryIndex k' < categoryIndex k)%nat) as [Hidx|Hidx]; [|lia].
    specialize (Hstrict Hidx). fold (P k') in Hstrict.
    rewrite Heq in Hstrict. exfalso. exact (Qlt_irrefl _ Hstrict). }
  assert (Hnone : res = None <-> forall k, 10 < T k -> (inject_Z 101 <= P k)%Q).
  { split.
    - intros Hres k Hk.
      destruct (getWeakestCategory_inv ls) as ([m w] & Hw & Hinv).
      fold res in Hw. cbn [snd] in Hw. rewrite Hres in Hw. subst w.
      unfold weakestInv in Hinv. cbn [fst snd] in Hinv.
      destruct Hinv as [_ Hall].
      apply (Hall (categoryIndex k) k (T k) (C k)); [|assumption].
      apply totalsOf_lookup. auto.
    - intros Hall. destruct res as [k|] eqn:Hres; [|reflexivity].
      destruct (Hsome k eq_refl) as (Hk & Hlt & _).
      exfalso. apply (Qlt_not_le _ _ Hlt). apply Hall, Hk. }
  split; [intros ->; reflexivity|].
  split; [exact Hsome|]. split; [exact Hnone|]. split.
  - intros k Hk Hres. destruct (Hsome k Hres) as [H _]. lia.
  - intros k HT HC Hothers.
    destruct res as [k0|] eqn:Hres.
    + destruct (Hsome k0 eq_refl) as (Hk0 & _ & Hmin).
      destruct (decide (k0 = k)) as [->|Hne]; [reflexivity|].
      exfalso. destruct (Hmin k ltac:(lia)) as [Hle _].
      pose proof (percentage_pos (T k0) (C k0) ltac:(lia) (Hothers k0 Hne Hk0)) as Hpos.
      fold (P k0) in Hpos. unfold P at 2 in Hle. rewrite HC in Hle.
      rewrite percentage_zero in Hle.
      exact (Qlt_not_le _ _ Hpos Hle).
    + exfalso. pose proof (proj1 Hnone eq_refl k ltac:(lia)) as H.
      unfold P in H. rewrite HC, percentage_zero in H.
      revert H. unfold Qle, inject_Z. simpl. lia.
Qed.

Lemma weakest_category_spec_witness :
  StatsDashboard.getWeakestCategory
    [dataSession 0 1 20 10; speechSession 0 2 11 0] = Some Speech.
Proof.
  apply (weakest_category_spec [dataSession 0 1 20 10; speechSession 0 2 11 0]).
  - reflexivity.
  - reflexivity.
  - intros k' Hne. destruct k'; try congruence; vm_compute; intros H; congruence.
Defined.

(** ** Empty and all-zero log sets *)




Lemma Forall_filter_bool {A} (P : A -> Prop) (f : A -> bool) (l : list A) :
  Forall P l -> Forall P (List.filter f l).
Proof.
  induction 1 as [|x l Hx _ IH]; simpl; [constructor|].
  destruct (f x); [constructor|]; assumption.
Qed.

Lemma streakLoop_ge (tz now : Z) (l : list DailyLog.t) :
  forall (processed : gset Z) (check streak : Z),
    streak <= StatsDashboard.streakLoop tz now l processed check streak.
Proof.
  induction l as [|log rest IH]; intros processed check streak;
    cbn [StatsDashboard.streakLoop]; [lia|].
  cbn zeta. destruct (bool_decide _); [apply IH|].
  destruct (_ =? _); [|lia].
  etransitivity; [|apply IH]. lia.
Qed.

Lemma calculateStreak_nonneg (tz now : Z) (ls : list DailyLog.t) :
  0 <= StatsDashboard.calculateStreak tz now ls.
Proof.
  unfold StatsDashboard.calculateStreak.
  destruct (length ls =? 0)%nat; [lia|].
  destruct (sortBy _ ls); [lia|].
  cbn zeta. destruct (Qlt_le_dec _ _); [lia|]. apply streakLoop_ge.
Qed.



(** ** The range filters *)

(** The filter of [filteredData] on a log that has a timestamp. *)
Lemma logInPeriod_timestamp (tz now startDay endDay : Z) (log : DailyLog.t) :
  DailyLog.timestamp log <> 0 ->
  ReviewSection.logInPeriod tz now (Some startDay) (Some endDay) log = true
  <-> startDay * msPerDay - tz <= DailyLog.timestamp log
      <= endDay * msPerDay + (msPerDay - 1) - tz.
Proof.
  intros Hts. unfold ReviewSection.logInPeriod.
  rewrite getStartOfDay_parseLocal, getEndOfDay_parseLocal.
  unfold js_or, truthy. destruct (Z.eqb_spec (DailyLog.timestamp log) 0); [lia|].
  cbn [negb]. rewrite andb_true_iff, !Z.leb_le. reflexivity.
Qed.

(** The same filter on a log without timestamp: its date is parsed. *)
Lemma logInPeriod_date (tz now startDay endDay : Z) (log : DailyLog.t) :
  DailyLog.timestamp log = 0 ->
  ReviewSection.logInPeriod tz now (Some startDay) (Some endDay) log = true
  <-> startDay <= DailyLog.date log <= endDay.
Proof.
  intros Hts. unfold ReviewSection.logInPeriod.
  rewrite getStartOfDay_parseLocal, getEndOfDay_parseLocal.
  unfold js_or, truthy. rewrite Hts. cbn [Z.eqb negb].
  unfold parseLocal, newDate_local.
  rewrite andb_true_iff, !Z.leb_le. rewrite msPerDay_value. lia.
Qed.

(** The range filter of the review section is inclusive at both ends. *)
Lemma logInPeriod_boundary (tz now startDay endDay : Z) (log : DailyLog.t) :
  startDay <= endDay ->
  DailyLog.timestamp log <> 0 ->
  (DailyLog.timestamp log = startDay * msPerDay - tz ->
     ReviewSection.logInPeriod tz now (Some startDay) (Some endDay) log = true) /\
  (DailyLog.timestamp log = endDay * msPerDay + (msPerDay - 1) - tz ->
     ReviewSection.logInPeriod tz now (Some startDay) (Some endDay) log = true) /\
  (DailyLog.timestamp log = endDay * msPerDay + (msPerDay - 1) - tz + 1 ->
     ReviewSection.logInPeriod tz now (Some startDay) (Some endDay) log = false).
Proof.
  intros Hle Hts.
  pose proof (logInPeriod_timestamp tz now startDay endDay log Hts) as Hiff.
  rewrite msPerDay_value in *. repeat split.
  - intros H. apply Hiff. lia.
  - intros H. apply Hiff. lia.
  - intros H.
    destruct (ReviewSection.logInPeriod tz now (Some startDay) (Some endDay) log);
      [|reflexivity].
    destruct Hiff as [Hiff _]. specialize (Hiff eq_refl). lia.
Qed.

(** At or east of Greenwich the size estimator decides like the review
    section, for logs and for notes. *)
Lemma logInRange_east (tz now startDay endDay : Z) (log : DailyLog.t) :
  0 <= tz < msPerDay ->
  HistoryDrawer.logInRange (setHours_0 tz (newDate_iso startDay))
    (setHours_23_59_59_999 tz (newDate_iso endDay)) log
  = ReviewSection.logInPeriod tz now (Some startDay) (Some endDay) log.
Proof.
  intros Htz. unfold HistoryDrawer.logInRange, ReviewSection.logInPeriod.
  rewrite getStartOfDay_parseLocal, getEndOfDay_parseLocal.
  unfold setHours_0, setHours_23_59_59_999.
  rewrite !format_newDate_iso_east by assumption.
  unfold js_or, truthy.
  destruct (Z.eqb_spec (DailyLog.timestamp log) 0) as [E|E]; cbn [negb];
    [|reflexivity].
  unfold newDate_iso, parseLocal, newDate_local. rewrite msPerDay_value in *.
  apply eq_true_iff_eq. rewrite !andb_true_iff, !Z.leb_le. lia.
Qed.

Lemma reviewInRange_east (tz now startDay endDay : Z) (note : ReviewNote.t) :
  0 <= tz < msPerDay ->
  HistoryDrawer.reviewInRange (setHours_0 tz (newDate_iso startDay))
    (setHours_23_59_59_999 tz (newDate_iso endDay)) note
  = ReviewSection.noteInPeriod tz now (Some startDay) (Some endDay) note.
Proof.
  intros Htz. unfold HistoryDrawer.reviewInRange, ReviewSection.noteInPeriod.
  rewrite getStartOfDay_parseLocal, getEndOfDay_parseLocal.
  unfold setHours_0, setHours_23_59_59_999.
  rewrite !format_newDate_iso_east by assumption. reflexivity.
Qed.

(** C2 at a failing input.  Five hours west of Greenwich, for the range
    2024-01-02 to 2024-01-02, a log of local noon on 2024-01-02 is matched by
    the filter of the review section, is not counted by the size estimator
    and is not removed by the deletion. *)
Theorem range_decisions_disagree :
  let log := speechSession jan2 1704214800000 10 5 in
  format_yyyyMMdd utcMinus5 (DailyLog.timestamp log) = jan2 /\
  ReviewSection.periodLogs
    (ReviewSection.filteredData utcMinus5 0 [log] [] (Some jan2) (Some jan2)) = [log] /\
  HistoryDrawer.logsInRange utcMinus5 [log] jan2 jan2 = [] /\
  App.currentLogs
    (App.handleDeleteRange utcMinus5 (sampleState [log] []) (Some jan2) (Some jan2))
  = [log].
Proof. vm_compute. repeat split; reflexivity. Qed.

(** C3 at a failing input.  Five hours west of Greenwich, with 2024-01-02
    as start and end date, a log timestamped at the local 23:59:59.999 of
    2024-01-02 is inside the range of the review section and outside the
    range of the size estimator, whose end is the local 23:59:59.999 of
    2024-01-01. *)
Theorem estimator_range_is_a_day_early :
  let log := speechSession jan2 1704257999999 10 5 in
  DailyLog.timestamp log = getEndOfDay utcMinus5 (parseLocal utcMinus5 0 (Some jan2)) /\
  ReviewSection.logInPeriod utcMinus5 0 (Some jan2) (Some jan2) log = true /\
  setHours_23_59_59_999 utcMinus5 (newDate_iso jan2)
    = getEndOfDay utcMinus5 (parseLocal utcMinus5 0 (Some (jan2 - 1))) /\
  HistoryDrawer.logsInRange utcMinus5 [log] jan2 jan2 = [].
Proof. vm_compute. repeat split; reflexivity. Qed.

(** ** Range deletion *)


(** For chosen dates the executor keeps exactly what the size estimator does
    not count. *)
Lemma keepLog_logInRange (startTs endTs : Z) (log : DailyLog.t) :
  App.keepLog (Some startTs) (Some endTs) log
  = negb (HistoryDrawer.logInRange startTs endTs log).
Proof.
  unfold App.keepLog, HistoryDrawer.logInRange, App.lt_nan, App.gt_nan.
  set (t := js_or _ _).
  destruct (Z.ltb_spec t startTs), (Z.gtb_spec t endTs),
    (Z.leb_spec startTs t), (Z.leb_spec t endTs); simpl; try reflexivity; lia.
Qed.

Lemma keepReview_reviewInRange (startTs endTs : Z) (rev : ReviewNote.t) :
  App.keepReview (Some startTs) (Some endTs) rev
  = negb (HistoryDrawer.reviewInRange startTs endTs rev).
Proof.
  unfold App.keepReview, HistoryDrawer.reviewInRange, App.lt_nan, App.gt_nan.
  set (t := ReviewNote.timestamp rev).
  destruct (Z.ltb_spec t startTs), (Z.gtb_spec t endTs),
    (Z.leb_spec startTs t), (Z.leb_spec t endTs); simpl; try reflexivity; lia.
Qed.



(** ** The staged deletion flow *)

(** The drawer calls [onDeleteRange] on one transition only. *)
Lemma handle_calls (tz : Z) (size : list DailyLog.t -> list ReviewNote.t -> Z)
    (render : Z -> string) (ls : list DailyLog.t) (rs : list ReviewNote.t)
    (drawer : HistoryDrawer.State) (ev : HistoryDrawer.Event)
    (call : option Z * option Z) :
  snd (HistoryDrawer.handle tz size render ls rs drawer ev) = Some call <->
  ev = HistoryDrawer.ClickDeleteFlow /\
  HistoryDrawer.deleteConfirmStep drawer = 3 /\
  call = (HistoryDrawer.deleteStart drawer, HistoryDrawer.deleteEnd drawer).
Proof.
  destruct ev; cbn [HistoryDrawer.handle snd];
    try (split; [discriminate | intros [H _]; discriminate H]).
  unfold HistoryDrawer.handleDeleteFlow.
  destruct (Z.eqb_spec (HistoryDrawer.deleteConfirmStep drawer) 0) as [E0|E0].
  { cbn [snd]. split; [discriminate | intros (_ & H & _); lia]. }
  destruct (Z.eqb_spec (HistoryDrawer.deleteConfirmStep drawer) 1) as [E1|E1].
  { destruct (HistoryDrawer.deleteStart drawer), (HistoryDrawer.deleteEnd drawer);
      cbn [snd]; (split; [discriminate | intros (_ & H & _); lia]). }
  destruct (Z.eqb_spec (HistoryDrawer.deleteConfirmStep drawer) 2) as [E2|E2].
  { cbn [snd]. split; [discriminate | intros (_ & H & _); lia]. }
  destruct (Z.eqb_spec (HistoryDrawer.deleteConfirmStep drawer) 3) as [E3|E3].
  { cbn [snd]. split.
    - intros [= <-]. auto.
    - intros (_ & _ & ->). reflexivity. }
  cbn [snd]. split; [discriminate | intros (_ & H & _); lia].
Qed.

(** C1.  In the staged bulk-deletion flow [onDeleteRange] is called on
    exactly one transition, the click at step 3, which also resets the step,
    the two dates and the size estimate; on every other event the
    application state is unchanged.  The click at step 1 is rejected (the
    drawer stays as it is) unless both dates are chosen; the click at step 2
    stores the size computed for the chosen range and moves to step 3;
    closing the flow changes neither logs nor notes. *)
Theorem bulk_delete_flow (tz : Z) (size : list DailyLog.t -> list ReviewNote.t -> Z)
    (render : Z -> string) (st : AppState) (drawer : HistoryDrawer.State)
    (ev : HistoryDrawer.Event) :
  let step := HistoryDrawer.deleteConfirmStep drawer in
  let st' := fst (App.dispatch tz size render st drawer ev) in
  let drawer' := snd (App.dispatch tz size render st drawer ev) in
  let click := HistoryDrawer.ClickDeleteFlow in
  (ev = click -> step = 3 ->
     st' = App.handleDeleteRange tz st (HistoryDrawer.deleteStart drawer)
                                 (HistoryDrawer.deleteEnd drawer) /\
     drawer' = HistoryDrawer.mkState false None None 0 EmptyString) /\
  (~ (ev = click /\ step = 3) -> st' = st) /\
  (ev = click -> step = 1 ->
     (HistoryDrawer.deleteStart drawer = None \/ HistoryDrawer.deleteEnd drawer = None) ->
     drawer' = drawer) /\
  (ev = click -> step = 1 ->
     is_Some (HistoryDrawer.deleteStart drawer) ->
     is_Some (HistoryDrawer.deleteEnd drawer) ->
     HistoryDrawer.deleteConfirmStep drawer' = 2) /\
  (ev = click -> step = 2 ->
     HistoryDrawer.deleteConfirmStep drawer' = 3 /\
     HistoryDrawer.estimatedSize drawer'
       = HistoryDrawer.calculateDataSize tz size render
           (App.currentLogs st) (App.currentReviews st)
           (HistoryDrawer.deleteStart drawer) (HistoryDrawer.deleteEnd drawer) /\
     HistoryDrawer.deleteStart drawer' = HistoryDrawer.deleteStart drawer /\
     HistoryDrawer.deleteEnd drawer' = HistoryDrawer.deleteEnd drawer) /\
  (ev = HistoryDrawer.CloseDeleteMode ->
     st' = st /\
     HistoryDrawer.deleteConfirmStep drawer' = 0 /\
     HistoryDrawer.isDeleteMode drawer' = false).
Proof.
  intros step st' drawer' click. subst step st' drawer' click.
  unfold App.dispatch.
  pose proof (handle_calls tz size render (App.currentLogs st)
                (App.currentReviews st) drawer ev) as Hcalls.
  split; [|split; [|split; [|split; [|split]]]].
  - intros -> Hstep. cbn [HistoryDrawer.handle].
    unfold HistoryDrawer.handleDeleteFlow. rewrite Hstep. split; reflexivity.
  - intros Hnot.
    destruct (HistoryDrawer.handle _ _ _ _ _ drawer ev) as [d' [[s e]|]];
      [|reflexivity].
    exfalso. apply Hnot. destruct (proj1 (Hcalls (s, e)) eq_refl) as (? & ? & _).
    auto.
  - intros -> Hstep Hdates. cbn [HistoryDrawer.handle].
    unfold HistoryDrawer.handleDeleteFlow. rewrite Hstep. cbn [Z.eqb].
    destruct Hdates as [-> | ->];
      [|destruct (HistoryDrawer.deleteStart drawer)]; reflexivity.
  - intros -> Hstep [s Hs] [e He]. cbn [HistoryDrawer.handle].
    unfold HistoryDrawer.handleDeleteFlow. rewrite Hstep, Hs, He. reflexivity.
  - intros -> Hstep. cbn [HistoryDrawer.handle].
    unfold HistoryDrawer.handleDeleteFlow. rewrite Hstep.
    repeat split; reflexivity.
  - intros ->. repeat split; reflexivity.
Qed.

Lemma bulk_delete_flow_witness :
  logs (fst (App.dispatch utcPlus8 (fun _ _ => 0) (fun _ => EmptyString)
               (sampleState [speechSession jan2 1704168000000 10 5;
                             speechSession (jan2 + 1) 1704254400000 10 5] [])
               (finalConfirm jan2 jan2) HistoryDrawer.ClickDeleteFlow))
    !! "exam"%string
  = Some [speechSession (jan2 + 1) 1704254400000 10 5].
Proof.
  destruct (bulk_delete_flow utcPlus8 (fun _ _ => 0) (fun _ => EmptyString)
              (sampleState [speechSession jan2 1704168000000 10 5;
                            speechSession (jan2 + 1) 1704254400000 10 5] [])
              (finalConfirm jan2 jan2) HistoryDrawer.ClickDeleteFlow)
    as (Hexec & _).
  destruct (Hexec eq_refl eq_refl) as [-> _].
  vm_compute. reflexivity.
Defined.

(** A whole run: open the flow, pick both dates, click three times. *)
Example bulk_delete_run :
  let st := sampleState [speechSession jan2 1704168000000 10 5] [noteAt jan2 1704168000001] in
  let run := fun '(s, d) ev =>
               App.dispatch utcPlus8 (fun _ _ => 0) (fun _ => EmptyString) s d ev in
  let events := [HistoryDrawer.OpenDeleteMode;
                 HistoryDrawer.ChangeDeleteStart (Some jan2);
                 HistoryDrawer.ChangeDeleteEnd (Some jan2);
                 HistoryDrawer.ClickDeleteFlow;
                 HistoryDrawer.ClickDeleteFlow] in
  let '(s2, d2) := foldl run (st, HistoryDrawer.initialState) events in
  let '(s3, d3) := run (s2, d2) HistoryDrawer.ClickDeleteFlow in
  s2 = st /\ HistoryDrawer.deleteConfirmStep d2 = 3 /\
  App.currentLogs s3 = [] /\ App.currentReviews s3 = [] /\
  d3 = HistoryDrawer.initialState.
Proof. vm_compute. repeat split; reflexivity. Qed.

(** ** Loading the persisted state *)




(** ** The trend charts *)


(** Under well-dated logs the period filter keeps the logs dated inside. *)
Lemma logInPeriod_wellDated (tz now startDay endDay : Z) (log : DailyLog.t) :
  wellDated tz log ->
  ReviewSection.logInPeriod tz now (Some startDay) (Some endDay) log
  = (startDay <=? DailyLog.date log) && (DailyLog.date log <=? endDay).
Proof.
  intros Hwd. apply eq_true_iff_eq. rewrite andb_true_iff, !Z.leb_le.
  destruct (Z.eq_dec (DailyLog.timestamp log) 0) as [E|E].
  - apply logInPeriod_date, E.
  - rewrite logInPeriod_timestamp by assumption.
    rewrite between_days. rewrite Hwd. reflexivity.
Qed.







Example chart_single_day :
  StatsDashboard.chartData utcPlus8 0
    [speechSession jan2 1704170000000 4 3;
     speechSession jan2 1704168000000 10 5;
     speechSession (jan2 + 1) 1704254400000 4 4;
     speechSession jan2 1704169000000 8 1]
    (Some jan2) (Some jan2)
  = [StatsDashboard.SessionPoint 1704168000000 1 50;
     StatsDashboard.SessionPoint 1704169000000 2 13;
     StatsDashboard.SessionPoint 1704170000000 3 75].
Proof. vm_compute. reflexivity. Qed.

Example chart_three_days :
  StatsDashboard.chartData utcPlus8 0
    [speechSession jan2 1704168000000 10 5;
     speechSession (jan2 + 2) 1704340800000 4 3]
    (Some jan2) (Some (jan2 + 2))
  = [StatsDashboard.DayPoint jan2 50;
     StatsDashboard.DayPoint (jan2 + 1) 0;
     StatsDashboard.DayPoint (jan2 + 2) 75].
Proof. vm_compute. reflexivity. Qed.

(** ** The streak *)

Lemma diffDays_gt_1 (diffTime : Z) :
  (inject_Z 1 < inject_Z diffTime / inject_Z (1000 * 3600 * 24))%Q
  <-> msPerDay < diffTime.
Proof.
  rewrite msPerDay_value. unfold Qlt, Qdiv, Qmult, Qinv, inject_Z. simpl. lia.
Qed.

Lemma activeDay_cons (log : DailyLog.t) (ls : list DailyLog.t) (day : Z) :
  activeDay (log :: ls) day <-> DailyLog.date log = day \/ activeDay ls day.
Proof.
  unfold activeDay. split.
  - intros (l & Hin & Hd). apply elem_of_cons in Hin as [->|Hin]; eauto.
  - intros [Hd|(l & Hin & Hd)].
    + exists log. split; [left|assumption].
    + exists l. split; [right|]; assumption.
Qed.

Lemma activeDay_nil (day : Z) : ~ activeDay [] day.
Proof. intros (l & Hin & _). inversion Hin. Qed.

Lemma activeDay_perm (l1 l2 : list DailyLog.t) (day : Z) :
  l1 ≡ₚ l2 -> activeDay l1 day <-> activeDay l2 day.
Proof.
  intros Hp. unfold activeDay.
  split; intros (l & Hin & Hd); exists l; split; try assumption.
  - rewrite <- Hp. assumption.
  - rewrite Hp. assumption.
Qed.

(** The loop of [calculateStreak] on logs in descending date order, at a
    check date [day]: it adds the length of the run of active days that
    ends at [day]. *)
Lemma streakLoop_spec (tz now : Z) (l : list DailyLog.t) :
  forall (processed : gset Z) (day streak : Z),
    StronglySorted (fun a b => DailyLog.date b <= DailyLog.date a) l ->
    (forall log, log ∈ l -> DailyLog.date log <= day \/ DailyLog.date log ∈ processed) ->
    (forall d, d ∈ processed -> day < d) ->
    exists run,
      0 <= run /\
      StatsDashboard.streakLoop tz now l processed (day * msPerDay - tz) streak
        = streak + run /\
      (forall i, 0 <= i < run -> activeDay l (day - i)) /\
      ~ activeDay l (day - run).
Proof.
  induction l as [|log rest IH]; intros processed day streak Hsorted Hbound Hproc.
  - exists 0. split; [lia|]. split; [simpl; lia|]. split; [lia|].
    apply activeDay_nil.
  - apply StronglySorted_inv in Hsorted as [Hsorted Hhead].
    cbn [StatsDashboard.streakLoop].
    fold (getStartOfDay tz (parseLocal tz now (Some (DailyLog.date log)))).
    rewrite getStartOfDay_parseLocal.
    assert (Hfmt : format_yyyyMMdd tz (DailyLog.date log * msPerDay - tz)
                   = DailyLog.date log) by apply format_newDate_local.
    rewrite Hfmt. cbn zeta.
    destruct (decide (DailyLog.date log ∈ processed)) as [Hseen|Hfresh].
    + (* continue *)
      rewrite bool_decide_eq_true_2 by assumption.
      destruct (IH processed day streak Hsorted) as (run & Hrun & Heq & Hact & Hgap).
      { intros l' Hl'. apply Hbound. right. assumption. }
      { assumption. }
      exists run. split; [assumption|]. split; [assumption|]. split.
      * intros i Hi. apply activeDay_cons. right. apply Hact, Hi.
      * rewrite activeDay_cons. intros [Hd|Hd]; [|contradiction].
        apply Hproc in Hseen. lia.
    + rewrite bool_decide_eq_false_2 by assumption.
      assert (Hle : DailyLog.date log <= day).
      { destruct (Hbound log ltac:(left)); [assumption|contradiction]. }
      destruct (Z.eqb_spec (DailyLog.date log * msPerDay - tz) (day * msPerDay - tz))
        as [E|E].
      * (* the checked day is active *)
        assert (Hd : DailyLog.date log = day) by (rewrite msPerDay_value in E; lia).
        replace (addDays (day * msPerDay - tz) (-1)) with ((day - 1) * msPerDay - tz)
          by (unfold addDays; lia).
        destruct (IH ({[DailyLog.date log]} ∪ processed) (day - 1) (streak + 1) Hsorted)
          as (run & Hrun & Heq & Hact & Hgap).
        { intros l' Hl'. rewrite Forall_forall in Hhead.
          specialize (Hhead l' Hl').
          destruct (Z.eq_dec (DailyLog.date l') day) as [E'|E'].
          - right. rewrite E', Hd. set_solver.
          - left. lia. }
        { intros d Hd'. apply elem_of_union in Hd' as [Hd'|Hd'].
          - apply elem_of_singleton in Hd'. lia.
          - apply Hproc in Hd'. lia. }
        exists (run + 1). split; [lia|]. split; [rewrite Heq; lia|]. split.
        -- intros i Hi. apply activeDay_cons.
           destruct (Z.eq_dec i 0) as [->|Hi0]; [left; lia|].
           right. replace (day - i) with (day - 1 - (i - 1)) by lia.
           apply Hact. lia.
        -- rewrite activeDay_cons. intros [Hd'|Hd']; [lia|].
           apply Hgap. replace (day - 1 - run) with (day - (run + 1)) by lia.
           exact Hd'.
      * (* break *)
        assert (Hlt : DailyLog.date log < day) by (rewrite msPerDay_value in E; lia).
        exists 0. split; [lia|]. split; [lia|]. split; [lia|].
        rewrite Z.sub_0_r, activeDay_cons. intros [Hd|(l' & Hl' & Hd)]; [lia|].
        rewrite Forall_forall in Hhead.
        specialize (Hhead l' Hl'). lia.
Qed.

Lemma StronglySorted_weaken {A} (R R' : A -> A -> Prop) (l : list A) :
  (forall a b, a ∈ l -> b ∈ l -> R a b -> R' a b) ->
  StronglySorted R l -> StronglySorted R' l.
Proof.
  intros Himpl Hs. induction Hs as [|x l Hs IH Hx]; constructor.
  - apply IH. intros a b Ha Hb. apply Himpl; right; assumption.
  - rewrite Forall_forall in *. intros y Hy.
    apply Himpl; [left | right; exact Hy | apply Hx, Hy].
Qed.

Lemma format_mono (tz t1 t2 : Z) :
  t1 <= t2 -> format_yyyyMMdd tz t1 <= format_yyyyMMdd tz t2.
Proof.
  intros H. unfold format_yyyyMMdd. apply Z.div_le_mono; [reflexivity | lia].
Qed.

(** The streak of a non-empty, well-dated log set, by its most recent
    active day. *)
Lemma calculateStreak_cases (tz now : Z) (ls : list DailyLog.t) :
  Forall (wellDated tz) ls -> ls <> [] ->
  let today := format_yyyyMMdd tz now in
  let streak := StatsDashboard.calculateStreak tz now ls in
  exists m,
    activeDay ls m /\ (forall d, activeDay ls d -> d <= m) /\
    ((1 < today - m /\ streak = 0) \/
     (today - m <= 1 /\ 0 <= streak /\
      (forall i, 0 <= i < streak -> activeDay ls (m - i)) /\
      ~ activeDay ls (m - streak))).
Proof.
  intros Hwd Hne today streak. subst today streak.
  unfold StatsDashboard.calculateStreak.
  destruct ls as [|l0 ls0] eqn:Els; [congruence|]. rewrite <- Els in *.
  replace (length ls =? 0)%nat with false by (rewrite Els; reflexivity).
  pose proof (sortBy_perm (fun a b => DailyLog.timestamp b - DailyLog.timestamp a) ls)
    as Hperm.
  pose proof (sortBy_descending ls) as Hsorted.
  set (sorted := sortBy (fun a b => DailyLog.timestamp b - DailyLog.timestamp a) ls) in *.
  assert (Hwd' : Forall (wellDated tz) sorted) by (rewrite Hperm; exact Hwd).
  assert (Hdates : StronglySorted (fun a b => DailyLog.date b <= DailyLog.date a) sorted).
  { eapply StronglySorted_weaken; [|exact Hsorted].
    intros a b Ha Hb Hab. rewrite Forall_forall in Hwd'.
    rewrite (Hwd' a Ha).
    rewrite (Hwd' b Hb).
    apply format_mono, Hab. }
  destruct sorted as [|first rest] eqn:Esorted.
  { exfalso. apply Permutation_nil_l in Hperm. congruence. }
  exists (DailyLog.date first).
  assert (Hactive : activeDay ls (DailyLog.date first)).
  { apply (activeDay_perm _ _ _ Hperm). apply activeDay_cons. left. reflexivity. }
  assert (Hmax : forall d, activeDay ls d -> d <= DailyLog.date first).
  { intros d Hd. apply (activeDay_perm _ _ _ Hperm) in Hd.
    apply activeDay_cons in Hd as [<-|(l' & Hl' & <-)]; [lia|].
    apply StronglySorted_inv in Hdates as [_ Hhead].
    rewrite Forall_forall in Hhead. apply Hhead, Hl'. }
  split; [exact Hactive|]. split; [exact Hmax|].
  fold (getStartOfDay tz (parseLocal tz now (Some (DailyLog.date first)))).
  rewrite getStartOfDay_parseLocal. unfold setHours_0.
  destruct (Qlt_le_dec _ _) as [Hgt|Hle].
  - left. pose proof (proj1 (diffDays_gt_1 _) Hgt) as Hgt'.
    rewrite msPerDay_value in Hgt'. split; [lia | reflexivity].
  - right.
    assert (Hnear : format_yyyyMMdd tz now - DailyLog.date first <= 1).
    { destruct (Z_lt_le_dec 1 (format_yyyyMMdd tz now - DailyLog.date first)) as [H|H];
        [|exact H].
      exfalso. apply (Qle_not_lt _ _ Hle). apply (proj2 (diffDays_gt_1 _)).
      rewrite msPerDay_value. lia. }
    split; [exact Hnear|].
    destruct (streakLoop_spec tz now (first :: rest) ∅ (DailyLog.date first) 0 Hdates)
      as (run & Hrun & Heq & Hact & Hgap).
    { intros log Hlog. left. apply Hmax, (activeDay_perm _ _ _ Hperm).
      exists log. split; [exact Hlog | reflexivity]. }
    { intros d Hd. set_solver. }
    rewrite Heq. rewrite Z.add_0_l. split; [exact Hrun|]. split.
    + intros i Hi. apply (activeDay_perm _ _ _ Hperm), Hact, Hi.
    + intros H. apply Hgap, (activeDay_perm _ _ _ Hperm), H.
Qed.



Example streak_examples :
  let now := 1704254400000 in
  let today := jan2 + 1 in
  StatsDashboard.calculateStreak utcPlus8 now [] = 0 /\
  StatsDashboard.calculateStreak utcPlus8 now
    [speechSession today 1704254400000 4 3;
     speechSession (today - 3) 1703995200000 4 3] = 1 /\
  StatsDashboard.calculateStreak utcPlus8 now
    [speechSession (today - 2) 1704081600000 4 3] = 0 /\
  StatsDashboard.calculateStreak utcPlus8 now
    [speechSession (today - 1) 1704168000000 4 3;
     speechSession (today - 2) 1704081600000 4 3;
     speechSession (today - 4) 1703908800000 4 3] = 2.
Proof. vm_compute. repeat split; reflexivity. Qed.

(** ** The handlers of the application state *)

Lemma selected_Some (st : AppState) (targetId : string) :
  App.selected st = Some targetId ->
  selectedTargetId st = Some targetId /\ targetId <> EmptyString.
Proof.
  unfold App.selected. destruct (selectedTargetId st) as [sid|]; [|discriminate].
  destruct (decide (sid = EmptyString)); [discriminate|].
  intros [= <-]. auto.
Qed.

(** [handleSaveLog] appends the check-in, under the new id, to the logs of
    the selected target and changes nothing else; without a selected target
    it changes nothing. *)
Theorem handleSaveLog_appends (st : AppState) (logData : DailyLog.t) (newId : string) :
  let st' := App.handleSaveLog st logData newId in
  (App.selected st = None -> st' = st) /\
  (forall targetId, App.selected st = Some targetId ->
     App.currentLogs st' = App.currentLogs st ++ [storedLog logData newId] /\
     App.currentReviews st' = App.currentReviews st /\
     targets st' = targets st /\
     selectedTargetId st' = selectedTargetId st /\
     reviews st' = reviews st /\
     forall other, other <> targetId -> logs st' !! other = logs st !! other).
Proof.
  intros st'. subst st'. unfold App.handleSaveLog. split.
  - intros ->. reflexivity.
  - intros targetId Hsel. rewrite Hsel.
    unfold App.currentLogs, App.currentReviews, App.selected.
    cbn [selectedTargetId logs reviews targets].
    fold (App.selected st). rewrite Hsel.
    rewrite lookup_insert_eq. cbn [default].
    repeat split; try reflexivity.
    intros other Hne. apply lookup_insert_ne. congruence.
Qed.

Lemma handleSaveLog_appends_witness :
  App.currentLogs
    (App.handleSaveLog (sampleState [speechSession jan2 1704168000000 10 5] [])
       (speechSession (jan2 + 1) 1704254400000 4 3) "n1"%string)
  = [speechSession jan2 1704168000000 10 5;
     storedLog (speechSession (jan2 + 1) 1704254400000 4 3) "n1"%string].
Proof.
  destruct (handleSaveLog_appends
              (sampleState [speechSession jan2 1704168000000 10 5] [])
              (speechSession (jan2 + 1) 1704254400000 4 3) "n1"%string) as [_ H].
  destruct (H "exam"%string eq_refl) as [-> _]. reflexivity.
Defined.

(** [handleSaveReview] puts the new note, owned by the selected target, in
    front of that target's notes and changes nothing else; without a
    selected target it changes nothing. *)
Theorem handleSaveReview_prepends (tz : Z) (st : AppState) (content newId : string)
    (dateNow stampNow : Z) :
  let st' := App.handleSaveReview tz st content newId dateNow stampNow in
  (App.selected st = None -> st' = st) /\
  (forall targetId, App.selected st = Some targetId ->
     App.currentReviews st'
       = ReviewNote.mk newId (format_yyyyMMdd tz dateNow) content targetId stampNow
         :: App.currentReviews st /\
     App.currentLogs st' = App.currentLogs st /\
     targets st' = targets st /\
     selectedTargetId st' = selectedTargetId st /\
     logs st' = logs st /\
     forall other, other <> targetId -> reviews st' !! other = reviews st !! other).
Proof.
  intros st'. subst st'. unfold App.handleSaveReview. split.
  - intros ->. reflexivity.
  - intros targetId Hsel. rewrite Hsel.
    unfold App.currentLogs, App.currentReviews, App.selected.
    cbn [selectedTargetId logs reviews targets].
    fold (App.selected st). rewrite Hsel.
    rewrite lookup_insert_eq. cbn [default].
    repeat split; try reflexivity.
    intros other Hne. apply lookup_insert_ne. congruence.
Qed.

Lemma handleSaveReview_prepends_witness :
  App.currentReviews
    (App.handleSaveReview utcPlus8 (sampleState [] [noteAt jan2 1704168000001])
       "second"%string "n2"%string 1704254400000 1704254400005)
  = [ReviewNote.mk "n2"%string (jan2 + 1) "second"%string "exam"%string 1704254400005;
     noteAt jan2 1704168000001].
Proof.
  destruct (handleSaveReview_prepends utcPlus8
              (sampleState [] [noteAt jan2 1704168000001])
              "second"%string "n2"%string 1704254400000 1704254400005) as [_ H].
  destruct (H "exam"%string eq_refl) as [-> _]. reflexivity.
Defined.

Lemma find_app_fresh (l : list ExamTarget.t) (t : ExamTarget.t) :
  (forall old, old ∈ l -> ExamTarget.id old <> ExamTarget.id t) ->
  List.find (fun x => bool_decide (ExamTarget.id x = ExamTarget.id t)) (l ++ [t])
  = Some t.
Proof.
  induction l as [|x l IH]; intros Hfresh; simpl.
  - rewrite bool_decide_eq_true_2 by reflexivity. reflexivity.
  - rewrite bool_decide_eq_false_2 by (apply Hfresh; left).
    apply IH. intros old Hold. apply Hfresh. right. exact Hold.
Qed.

(** [handleCreateTarget] does nothing without a name or without a date.
    Otherwise it appends the new target, selects it and leaves every stored
    log and note where it is: the new target starts with whatever is stored
    under its identifier, and it is the current target when no listed
    target already has that identifier. *)
Theorem handleCreateTarget_spec (st : AppState) (name : string) (date : option Z)
    (color newId : string) (createdAt : Z) :
  let st' := App.handleCreateTarget st name date color newId createdAt in
  (name = EmptyString \/ date = None -> st' = st) /\
  (forall examDate, name <> EmptyString -> date = Some examDate ->
     let newTarget := ExamTarget.mk newId name examDate color createdAt in
     targets st' = targets st ++ [newTarget] /\
     selectedTargetId st' = Some newId /\
     logs st' = logs st /\ reviews st' = reviews st /\
     (newId <> EmptyString ->
        App.currentLogs st' = default [] (logs st !! newId) /\
        App.currentReviews st' = default [] (reviews st !! newId)) /\
     ((forall old, old ∈ targets st -> ExamTarget.id old <> newId) ->
        App.currentTarget st' = Some newTarget)).
Proof.
  intros st'. subst st'. unfold App.handleCreateTarget. split.
  - intros [-> | ->].
    + reflexivity.
    + destruct (decide (name = EmptyString)); reflexivity.
  - intros examDate Hname ->.
    destruct (decide (name = EmptyString)) as [E|_]; [contradiction|].
    cbn zeta. repeat split.
    + unfold App.currentLogs, App.selected. cbn [selectedTargetId logs].
      destruct (decide (newId = EmptyString)); [contradiction|reflexivity].
    + unfold App.currentReviews, App.selected. cbn [selectedTargetId reviews].
      destruct (decide (newId = EmptyString)); [contradiction|reflexivity].
    + intros Hfresh. unfold App.currentTarget. cbn [selectedTargetId targets].
      apply (find_app_fresh (targets st)
               (ExamTarget.mk newId name examDate color createdAt)).
      exact Hfresh.
Qed.

Lemma handleCreateTarget_spec_witness :
  App.currentTarget
    (App.handleCreateTarget (sampleState [] []) "third"%string (Some 20100)
       EmptyString "id3"%string 7)
  = Some (ExamTarget.mk "id3"%string "third"%string 20100 EmptyString 7).
Proof.
  destruct (handleCreateTarget_spec (sampleState [] []) "third"%string (Some 20100)
              EmptyString "id3"%string 7) as [_ H].
  destruct (H 20100 ltac:(discriminate) eq_refl) as (_ & _ & _ & _ & _ & Hcur).
  apply Hcur. intros old Hold.
  repeat (apply elem_of_cons in Hold as [->|Hold]); [discriminate..|inversion Hold].
Defined.

(** [handleDeleteTarget] removes every listed target with the identifier,
    keeps the others in order, and selects the first remaining target (none
    when the list becomes empty), whichever target was selected before.
    The logs and notes stored under the identifier stay in the state. *)
Theorem handleDeleteTarget_spec (st : AppState) (id : string) :
  let st' := App.handleDeleteTarget st id in
  (forall t, t ∈ targets st' <-> t ∈ targets st /\ ExamTarget.id t <> id) /\
  targets st' `sublist_of` targets st /\
  selectedTargetId st' = ExamTarget.id <$> head (targets st') /\
  logs st' = logs st /\
  reviews st' = reviews st.
Proof.
  intros st'. subst st'. unfold App.handleDeleteTarget.
  cbn [targets selectedTargetId logs reviews].
  split; [|split; [|split; [|split; reflexivity]]].
  - intros t. rewrite !list_elem_of_In, filter_In, negb_true_iff.
    rewrite bool_decide_eq_false. reflexivity.
  - induction (targets st) as [|x l IH]; simpl; [constructor|].
    destruct (negb _); [apply sublist_skip | apply sublist_cons]; exact IH.
  - destruct (List.filter _ (targets st)); reflexivity.
Qed.

(** The selection stays empty or listed: creating and deleting a target
    establish it, and selecting a listed target, saving a log, saving a note
    and deleting a range preserve it. *)
Theorem selection_stays_listed (tz : Z) (st : AppState) :
  (forall name date color newId createdAt,
     selectionListed st ->
     selectionListed (App.handleCreateTarget st name date color newId createdAt)) /\
  (forall id, selectionListed (App.handleDeleteTarget st id)) /\
  (forall t, t ∈ targets st -> selectionListed (App.selectTarget st t)) /\
  (forall logData newId,
     selectionListed st -> selectionListed (App.handleSaveLog st logData newId)) /\
  (forall content newId dateNow stampNow,
     selectionListed st ->
     selectionListed (App.handleSaveReview tz st content newId dateNow stampNow)) /\
  (forall startDate endDate,
     selectionListed st ->
     selectionListed (App.handleDeleteRange tz st startDate endDate)).
Proof.
  split; [|split; [|split; [|split; [|split]]]].
  - intros name date color newId createdAt Hinv. unfold App.handleCreateTarget.
    destruct (decide (name = EmptyString)); [exact Hinv|].
    destruct date as [examDate|]; [|exact Hinv].
    unfold selectionListed. cbn [selectedTargetId targets].
    eexists. split; [apply elem_of_app; right; left | reflexivity].
  - intros id. unfold App.handleDeleteTarget, selectionListed.
    cbn [selectedTargetId targets].
    destruct (List.filter _ (targets st)) as [|first rest]; [exact I|].
    exists first. split; [left | reflexivity].
  - intros t Ht. unfold selectionListed, App.selectTarget.
    cbn [selectedTargetId targets]. exists t. auto.
  - intros logData newId Hinv. unfold App.handleSaveLog.
    destruct (App.selected st); exact Hinv.
  - intros content newId dateNow stampNow Hinv. unfold App.handleSaveReview.
    destruct (App.selected st); exact Hinv.
  - intros startDate endDate Hinv. unfold App.handleDeleteRange.
    destruct (App.selected st); exact Hinv.
Qed.

Lemma selection_stays_listed_witness :
  selectionListed
    (App.handleSaveLog
       (App.handleDeleteTarget (sampleState [] []) "exam"%string)
       (speechSession jan2 1704168000000 10 5) "n1"%string).
Proof.
  destruct (selection_stays_listed 0
              (App.handleDeleteTarget (sampleState [] []) "exam"%string))
    as (_ & _ & _ & Hsave & _).
  apply Hsave.
  destruct (selection_stays_listed 0 (sampleState [] [])) as (_ & Hdel & _).
  apply Hdel.
Defined.

(** ** More on range deletion *)

Lemma filter_idem {A} (f : A -> bool) (l : list A) :
  List.filter f (List.filter f l) = List.filter f l.
Proof.
  induction l as [|x l IH]; simpl; [reflexivity|].
  destruct (f x) eqn:E; simpl; [rewrite E, IH|]; auto.
Qed.

Lemma filter_all {A} (f : A -> bool) (l : list A) :
  (forall x, f x = true) -> List.filter f l = l.
Proof.
  intros H. induction l as [|x l IH]; simpl; [reflexivity|].
  rewrite H, IH. reflexivity.
Qed.

Lemma filter_none {A} (f g : A -> bool) (l : list A) :
  (forall x, g x = true -> f x = false) -> List.filter f (List.filter g l) = [].
Proof.
  intros H. induction l as [|x l IH]; simpl; [reflexivity|].
  destruct (g x) eqn:E; simpl; [rewrite (H x E)|]; exact IH.
Qed.

Lemma filter_split_perm {A} (f g : A -> bool) (l : list A) :
  (forall x, g x = negb (f x)) -> l ≡ₚ List.filter f l ++ List.filter g l.
Proof.
  intros H. induction l as [|x l IH]; simpl; [reflexivity|].
  rewrite H. destruct (f x); simpl.
  - constructor. exact IH.
  - rewrite <- Permutation_middle. constructor. exact IH.
Qed.

Lemma selected_same (st st' : AppState) :
  selectedTargetId st' = selectedTargetId st -> App.selected st' = App.selected st.
Proof. unfold App.selected. intros ->. reflexivity. Qed.

(** The logs and notes on screen after a range deletion are the ones the
    handler keeps. *)
Lemma currentLogs_handleDeleteRange (tz : Z) (st : AppState) (startDate endDate : option Z) :
  App.currentLogs (App.handleDeleteRange tz st startDate endDate)
  = List.filter (App.keepLog (setHours_0 tz <$> newDate_string startDate)
                             (setHours_23_59_59_999 tz <$> newDate_string endDate))
                (App.currentLogs st) /\
  App.currentReviews (App.handleDeleteRange tz st startDate endDate)
  = List.filter (App.keepReview (setHours_0 tz <$> newDate_string startDate)
                                (setHours_23_59_59_999 tz <$> newDate_string endDate))
                (App.currentReviews st).
Proof.
  unfold App.handleDeleteRange, App.currentLogs, App.currentReviews.
  destruct (App.selected st) as [targetId|] eqn:Hsel.
  - rewrite (selected_same st) by reflexivity. rewrite Hsel.
    cbn [logs reviews]. rewrite !lookup_insert_eq. auto.
  - rewrite Hsel. auto.
Qed.

Lemma handleDeleteRange_selected (tz : Z) (st : AppState) (startDate endDate : option Z)
    (targetId : string) :
  App.selected st = Some targetId ->
  App.handleDeleteRange tz st startDate endDate
  = {| targets := targets st;
       selectedTargetId := selectedTargetId st;
       logs := <[targetId :=
                   List.filter
                     (App.keepLog (setHours_0 tz <$> newDate_string startDate)
                                  (setHours_23_59_59_999 tz <$> newDate_string endDate))
                     (default [] (logs st !! targetId))]> (logs st);
       reviews := <[targetId :=
                      List.filter
                        (App.keepReview (setHours_0 tz <$> newDate_string startDate)
                                        (setHours_23_59_59_999 tz <$> newDate_string endDate))
                        (default [] (reviews st !! targetId))]> (reviews st) |}.
Proof. intros Hsel. unfold App.handleDeleteRange. rewrite Hsel. reflexivity. Qed.

(** Deleting the same range twice is the same as deleting it once. *)
Theorem handleDeleteRange_idempotent (tz : Z) (st : AppState) (startDate endDate : option Z) :
  App.handleDeleteRange tz (App.handleDeleteRange tz st startDate endDate)
    startDate endDate
  = App.handleDeleteRange tz st startDate endDate.
Proof.
  destruct (App.selected st) as [targetId|] eqn:Hsel.
  - rewrite (handleDeleteRange_selected tz st _ _ targetId Hsel).
    rewrite (handleDeleteRange_selected tz _ _ _ targetId)
      by (rewrite <- Hsel; apply selected_same; reflexivity).
    cbn [logs reviews targets selectedTargetId].
    rewrite !lookup_insert_eq. cbn [default from_option id].
    rewrite !filter_idem, !insert_insert_eq. reflexivity.
  - unfold App.handleDeleteRange. rewrite Hsel. rewrite Hsel. reflexivity.
Qed.

Lemma format_newDate_iso (tz day : Z) :
  format_yyyyMMdd tz (newDate_iso day) = day + tz `div` msPerDay.
Proof.
  unfold format_yyyyMMdd, newDate_iso.
  rewrite Z.div_add_l by (rewrite msPerDay_value; lia). reflexivity.
Qed.

(** A range whose end date is before its start date removes nothing. *)
Theorem handleDeleteRange_reversed (tz : Z) (st : AppState) (startDay endDay : Z) :
  endDay < startDay ->
  let st' := App.handleDeleteRange tz st (Some startDay) (Some endDay) in
  App.currentLogs st' = App.currentLogs st /\
  App.currentReviews st' = App.currentReviews st /\
  targets st' = targets st /\
  selectedTargetId st' = selectedTargetId st.
Proof.
  intros Hrev st'. subst st'.
  destruct (currentLogs_handleDeleteRange tz st (Some startDay) (Some endDay)) as [-> ->].
  cbn [newDate_string fmap option_fmap option_map].
  assert (Hts : setHours_23_59_59_999 tz (newDate_iso endDay)
                < setHours_0 tz (newDate_iso startDay)).
  { unfold setHours_0, setHours_23_59_59_999. rewrite !format_newDate_iso.
    rewrite msPerDay_value. lia. }
  split; [|split].
  - apply filter_all. intros log. unfold App.keepLog, App.lt_nan, App.gt_nan.
    apply orb_true_iff. rewrite Z.ltb_lt, Z.gtb_gt. lia.
  - apply filter_all. intros rev. unfold App.keepReview, App.lt_nan, App.gt_nan.
    apply orb_true_iff. rewrite Z.ltb_lt, Z.gtb_gt. lia.
  - unfold App.handleDeleteRange. destruct (App.selected st); auto.
Qed.

Lemma handleDeleteRange_reversed_witness :
  App.currentLogs
    (App.handleDeleteRange utcPlus8
       (sampleState [speechSession jan2 1704168000000 10 5] [])
       (Some (jan2 + 1)) (Some (jan2 - 1)))
  = [speechSession jan2 1704168000000 10 5].
Proof.
  destruct (handleDeleteRange_reversed utcPlus8
              (sampleState [speechSession jan2 1704168000000 10 5] [])
              (jan2 + 1) (jan2 - 1) ltac:(unfold jan2; lia)) as [-> _].
  reflexivity.
Defined.


(** What the size estimator counts for two chosen dates is what the
    deletion removes: the logs and notes on screen split into the counted
    ones and the ones left after the deletion, and after the deletion the
    estimator counts nothing for the same dates. *)
Theorem estimate_matches_deletion (tz : Z) (st : AppState) (startDay endDay : Z) :
  let st' := App.handleDeleteRange tz st (Some startDay) (Some endDay) in
  App.currentLogs st
    ≡ₚ HistoryDrawer.logsInRange tz (App.currentLogs st) startDay endDay
       ++ App.currentLogs st' /\
  App.currentReviews st
    ≡ₚ HistoryDrawer.reviewsInRange tz (App.currentReviews st) startDay endDay
       ++ App.currentReviews st' /\
  HistoryDrawer.logsInRange tz (App.currentLogs st') startDay endDay = [] /\
  HistoryDrawer.reviewsInRange tz (App.currentReviews st') startDay endDay = [].
Proof.
  intros st'. subst st'.
  destruct (currentLogs_handleDeleteRange tz st (Some startDay) (Some endDay)) as [-> ->].
  cbn [newDate_string fmap option_fmap option_map].
  unfold HistoryDrawer.logsInRange, HistoryDrawer.reviewsInRange.
  split; [|split; [|split]].
  - apply filter_split_perm. intros l. apply keepLog_logInRange.
  - apply filter_split_perm. intros r. apply keepReview_reviewInRange.
  - apply filter_none. intros l. rewrite keepLog_logInRange. apply negb_true_iff.
  - apply filter_none. intros r. rewrite keepReview_reviewInRange. apply negb_true_iff.
Qed.

(** At or east of Greenwich, saving a check-in dated by its timestamp and
    then deleting the range of that one day gives the state that deleting
    that day without saving gives. *)
Theorem save_then_delete_day (tz : Z) (st : AppState) (logData : DailyLog.t)
    (newId : string) :
  0 <= tz < msPerDay ->
  wellDated tz logData ->
  let day := DailyLog.date logData in
  App.handleDeleteRange tz (App.handleSaveLog st logData newId) (Some day) (Some day)
  = App.handleDeleteRange tz st (Some day) (Some day).
Proof.
  intros Htz Hwd day. subst day.
  unfold App.handleSaveLog.
  destruct (App.selected st) as [targetId|] eqn:Hsel; [|reflexivity].
  rewrite (handleDeleteRange_selected tz st _ _ targetId Hsel).
  rewrite (handleDeleteRange_selected tz _ _ _ targetId)
    by (rewrite <- Hsel; apply selected_same; reflexivity).
  cbn [logs reviews targets selectedTargetId].
  rewrite lookup_insert_eq. cbn [default from_option id].
  rewrite insert_insert_eq. f_equal. f_equal.
  rewrite List.filter_app. cbn [List.filter newDate_string fmap option_fmap option_map].
  rewrite keepLog_logInRange.
  rewrite (logInRange_east tz 0) by assumption.
  rewrite logInPeriod_wellDated by exact Hwd.
  cbn [DailyLog.date]. rewrite !Z.leb_refl. cbn. apply app_nil_r.
Qed.

Lemma save_then_delete_day_witness :
  App.currentLogs
    (App.handleDeleteRange utcPlus8
       (App.handleSaveLog (sampleState [speechSession (jan2 + 1) 1704254400000 4 3] [])
          (speechSession jan2 1704168000000 10 5) "n1"%string)
       (Some jan2) (Some jan2))
  = [speechSession (jan2 + 1) 1704254400000 4 3].
Proof.
  pose proof (save_then_delete_day utcPlus8
                (sampleState [speechSession (jan2 + 1) 1704254400000 4 3] [])
                (speechSession jan2 1704168000000 10 5) "n1"%string
                ltac:(vm_compute; split; [discriminate | reflexivity])
                ltac:(vm_compute; reflexivity)) as H.
  change (DailyLog.date (speechSession jan2 1704168000000 10 5)) with jan2 in H.
  cbv zeta in H. rewrite H. vm_compute. reflexivity.
Defined.

(** ** The history drawer *)

Lemma setOf_spec (xs : list Z) :
  NoDup (HistoryDrawer.setOf xs) /\ forall x, x ∈ HistoryDrawer.setOf xs <-> x ∈ xs.
Proof.
  unfold HistoryDrawer.setOf.
  assert (G : forall seen, NoDup seen ->
    NoDup (foldl (fun seen x => if bool_decide (x ∈ seen) then seen else seen ++ [x]) seen xs) /\
    forall x, x ∈ foldl (fun seen x => if bool_decide (x ∈ seen) then seen else seen ++ [x]) seen xs
              <-> x ∈ seen \/ x ∈ xs).
  { induction xs as [|y xs IH]; intros seen Hnd; cbn [foldl].
    - split; [exact Hnd|]. intros x. rewrite elem_of_nil. tauto.
    - destruct (decide (y ∈ seen)) as [Hy|Hy].
      + rewrite bool_decide_eq_true_2 by exact Hy.
        destruct (IH seen Hnd) as [H1 H2]. split; [exact H1|].
        intros x. rewrite H2, elem_of_cons. split; [tauto|].
        intros [?|[->|?]]; auto.
      + rewrite bool_decide_eq_false_2 by exact Hy.
        destruct (IH (seen ++ [y])) as [H1 H2].
        { apply NoDup_app. split; [exact Hnd|]. split; [|apply NoDup_singleton].
          intros z Hz Hz'. apply list_elem_of_singleton in Hz'. subst z. contradiction. }
        split; [exact H1|]. intros x.
        rewrite H2, elem_of_app, list_elem_of_singleton, elem_of_cons. tauto. }
  destruct (G [] (NoDup_nil_2)) as [H1 H2]. split; [exact H1|].
  intros x. rewrite H2, elem_of_nil. tauto.
Qed.

Lemma StronglySorted_filter {A} (R : A -> A -> Prop) (f : A -> bool) (l : list A) :
  StronglySorted R l -> StronglySorted R (List.filter f l).
Proof.
  induction 1 as [|x l Hs IH Hx]; simpl; [constructor|].
  destruct (f x); [|exact IH]. constructor; [exact IH|].
  rewrite Forall_forall in *. intros y Hy. apply Hx.
  apply list_elem_of_In in Hy. apply filter_In in Hy as [Hy _].
  apply list_elem_of_In. exact Hy.
Qed.

Lemma StronglySorted_strict (l : list Z) :
  NoDup l -> StronglySorted (fun a b => b <= a) l -> StronglySorted (fun a b => b < a) l.
Proof.
  intros Hnd Hs. induction Hs as [|x l Hs IH Hx]; [constructor|].
  apply NoDup_cons in Hnd as [Hx' Hnd]. constructor; [apply IH, Hnd|].
  rewrite Forall_forall in *. intros y Hy.
  specialize (Hx y Hy). destruct (Z.eq_dec y x) as [->|]; [contradiction|lia].
Qed.

Lemma groupedData_unfiltered (ls : list DailyLog.t) (rs : list ReviewNote.t) :
  let sorted := HistoryDrawer.groupedData ls rs None None in
  StronglySorted (fun a b => b < a) sorted /\
  forall d, d ∈ sorted <->
    (exists l, l ∈ ls /\ DailyLog.date l = d) \/
    (exists r, r ∈ rs /\ ReviewNote.date r = d).
Proof.
  intros sorted. subst sorted. unfold HistoryDrawer.groupedData.
  destruct (setOf_spec (map DailyLog.date ls ++ map ReviewNote.date rs)) as [Hnd Hin].
  set (dates := HistoryDrawer.setOf _) in *.
  pose proof (sortBy_perm (fun a b => newDate_iso b - newDate_iso a) dates) as Hperm.
  split.
  - apply StronglySorted_strict; [rewrite Hperm; exact Hnd|].
    apply sortBy_sorted; unfold newDate_iso; intros; rewrite ?msPerDay_value; lia.
  - intros d. rewrite Hperm, Hin, elem_of_app, !list_elem_of_fmap.
    split; (intros [(x & H1 & H2)|(x & H1 & H2)]; [left|right]; exists x; auto).
Qed.

(** The dates of the history are the dates of the logs and of the notes
    that lie between the two filter dates (an empty filter date does not
    restrict), each once, the latest first. *)
Theorem groupedData_spec (ls : list DailyLog.t) (rs : list ReviewNote.t)
    (filterStart filterEnd : option Z) :
  let dates := HistoryDrawer.groupedData ls rs filterStart filterEnd in
  StronglySorted (fun a b => b < a) dates /\
  forall d, d ∈ dates <->
    ((exists l, l ∈ ls /\ DailyLog.date l = d) \/
     (exists r, r ∈ rs /\ ReviewNote.date r = d)) /\
    (forall fs, filterStart = Some fs -> fs <= d) /\
    (forall fe, filterEnd = Some fe -> d <= fe).
Proof.
  intros dates. subst dates.
  destruct (groupedData_unfiltered ls rs) as [Hsorted Hmem].
  unfold HistoryDrawer.groupedData in *.
  set (sorted := sortBy _ _) in *.
  assert (Hf : forall (f : Z -> bool) (l : list Z) d,
             d ∈ List.filter f l <-> d ∈ l /\ f d = true).
  { intros f l d. rewrite !list_elem_of_In. apply filter_In. }
  destruct filterStart as [fs|], filterEnd as [fe|].
  - split; [do 2 apply StronglySorted_filter; exact Hsorted|].
    intros d. rewrite !Hf, Hmem, Z.leb_le, Z.geb_le. split.
    + intros [[H ?] ?]. split; [exact H|]. split; intros ? [= <-]; lia.
    + intros (H & H1 & H2). specialize (H1 _ eq_refl). specialize (H2 _ eq_refl). auto.
  - split; [apply StronglySorted_filter; exact Hsorted|].
    intros d. rewrite !Hf, Hmem, Z.geb_le. split.
    + intros [H ?]. split; [exact H|]. split; [intros ? [= <-]; lia | discriminate].
    + intros (H & H1 & _). specialize (H1 _ eq_refl). auto.
  - split; [apply StronglySorted_filter; exact Hsorted|].
    intros d. rewrite !Hf, Hmem, Z.leb_le. split.
    + intros [H ?]. split; [exact H|]. split; [discriminate | intros ? [= <-]; lia].
    + intros (H & _ & H2). specialize (H2 _ eq_refl). auto.
  - split; [exact Hsorted|]. intros d. rewrite Hmem. split.
    + intros H. split; [exact H|]. split; discriminate.
    + intros [H _]. exact H.
Qed.

(** The sessions and the notes shown under a date are exactly the logs and
    the notes of that date, the latest first. *)
Theorem day_entries_spec (ls : list DailyLog.t) (rs : list ReviewNote.t) (date : Z) :
  HistoryDrawer.getLogsForDate ls date ≡ₚ logsOn ls date /\
  StronglySorted (fun a b => byTimestamp b a) (HistoryDrawer.getLogsForDate ls date) /\
  HistoryDrawer.getReviewsForDate rs date
    ≡ₚ List.filter (fun r => ReviewNote.date r =? date) rs /\
  StronglySorted (fun a b => ReviewNote.timestamp b <= ReviewNote.timestamp a)
    (HistoryDrawer.getReviewsForDate rs date).
Proof.
  unfold HistoryDrawer.getLogsForDate, HistoryDrawer.getReviewsForDate.
  split; [apply sortBy_perm|]. split; [apply sortBy_descending|].
  split; [apply sortBy_perm|].
  apply sortBy_sorted; intros; lia.
Qed.

Lemma logsSum_perm (f : QuestionRecord -> Z) (l1 l2 : list DailyLog.t) :
  l1 ≡ₚ l2 -> logsSum f l1 = logsSum f l2.
Proof.
  unfold logsSum. induction 1; cbn [map foldr]; lia.
Qed.

Lemma logsSum_app (f : QuestionRecord -> Z) (l1 l2 : list DailyLog.t) :
  logsSum f (l1 ++ l2) = logsSum f l1 + logsSum f l2.
Proof.
  unfold logsSum. induction l1 as [|x l1 IH]; cbn [app map foldr]; lia.
Qed.

Lemma logs_fold_logsSum (f : QuestionRecord -> Z) (ls : list DailyLog.t) (a : Z) :
  foldl (fun acc log =>
           foldl (fun acc r => acc + f r) acc
                 (Object_values (DailyLog.categories log))) a ls
  = a + logsSum f ls.
Proof.
  unfold logsSum. revert a. induction ls as [|log ls IH]; intros a; cbn [foldl map foldr].
  - lia.
  - rewrite IH, values_fold. unfold recordSum. lia.
Qed.

Lemma getTotalQuestions_logsSum (ls : list DailyLog.t) :
  StatsDashboard.getTotalQuestions ls = logsSum total ls.
Proof.
  unfold StatsDashboard.getTotalQuestions, logsSum.
  assert (G : forall a,
    foldl (fun acc log =>
             acc + foldl (fun sum cat => sum + total cat) 0
                     (Object_values (DailyLog.categories log))) a ls
    = a + foldr Z.add 0 (map (recordSum total) ls)).
  { induction ls as [|log ls IH]; intros a; cbn [foldl map foldr]; [lia|].
    rewrite IH, values_fold. unfold recordSum. lia. }
  rewrite G. lia.
Qed.

Lemma calculateTotal_logsSum (ls : list DailyLog.t) :
  HistoryDrawer.calculateTotal ls
  = HistoryDrawer.mkTotals (logsSum total ls) (logsSum correct ls) (logsSum duration ls)
      (accuracy (logsSum total ls) (logsSum correct ls)).
Proof.
  unfold HistoryDrawer.calculateTotal, logsTotal, logsCorrect, logsDuration.
  rewrite !logs_fold_logsSum, !Z.add_0_l. reflexivity.
Qed.

(** Every log counts under exactly one of a duplicate-free list of dates
    that holds its date. *)
Lemma logsSum_by_day (f : QuestionRecord -> Z) (days : list Z) (ls : list DailyLog.t) :
  NoDup days ->
  (forall l, l ∈ ls -> DailyLog.date l ∈ days) ->
  foldr Z.add 0 (map (fun d => logsSum f (logsOn ls d)) days) = logsSum f ls.
Proof.
  intros Hnd. induction ls as [|log ls IH]; intros Hall.
  - clear Hnd Hall. induction days as [|d days IHd]; [reflexivity|].
    cbn [map foldr]. rewrite IHd. reflexivity.
  - assert (Hone : forall v, foldr Z.add 0
                     (map (fun d => if DailyLog.date log =? d then v else 0) days) = v).
    { intros v. specialize (Hall log ltac:(left)). clear IH.
      induction days as [|d days IHd]; [inversion Hall|].
      apply NoDup_cons in Hnd as [Hd Hnd]. cbn [map foldr].
      destruct (Z.eqb_spec (DailyLog.date log) d) as [E|E].
      - assert (Hz : foldr Z.add 0
                       (map (fun d0 => if DailyLog.date log =? d0 then v else 0) days) = 0).
        { rewrite E. clear IHd Hall Hnd. induction days as [|d' days IH']; [reflexivity|].
          cbn [map foldr]. rewrite not_elem_of_cons in Hd. destruct Hd as [Hne Hd].
          destruct (Z.eqb_spec d d'); [congruence|]. rewrite IH' by exact Hd. lia. }
        lia.
      - apply elem_of_cons in Hall as [Hall|Hall]; [congruence|].
        rewrite (IHd Hnd Hall). lia. }
    assert (Hstep : forall d, logsSum f (logsOn (log :: ls) d)
              = (if DailyLog.date log =? d then recordSum f log else 0)
                + logsSum f (logsOn ls d)).
    { intros d. unfold logsOn. cbn [List.filter].
      destruct (DailyLog.date log =? d); unfold logsSum; cbn [map foldr]; lia. }
    rewrite (map_ext _ _ Hstep).
    assert (Hsplit : forall (g h : Z -> Z) (l : list Z),
              foldr Z.add 0 (map (fun d => g d + h d) l)
              = foldr Z.add 0 (map g l) + foldr Z.add 0 (map h l)).
    { intros g h l. induction l; cbn [map foldr]; lia. }
    rewrite (Hsplit (fun d => if DailyLog.date log =? d then recordSum f log else 0)
                    (fun d => logsSum f (logsOn ls d))).
    rewrite Hone, IH by (intros l Hl; apply Hall; right; exact Hl).
    unfold logsSum. cbn [map foldr]. lia.
Qed.

(** The day summaries of the unfiltered history add up to the totals over
    all logs: the question counts to the total of the dashboard, and the
    correct answers and minutes likewise.  A day's summary does not depend
    on the order of its sessions. *)
Theorem day_summaries_add_up (ls : list DailyLog.t) (rs : list ReviewNote.t) :
  let days := HistoryDrawer.groupedData ls rs None None in
  let summary := fun d => HistoryDrawer.calculateTotal (HistoryDrawer.getLogsForDate ls d) in
  (forall d, summary d = HistoryDrawer.calculateTotal (logsOn ls d)) /\
  foldr Z.add 0 (map (fun d => HistoryDrawer.totalQ (summary d)) days)
    = StatsDashboard.getTotalQuestions ls /\
  foldr Z.add 0 (map (fun d => HistoryDrawer.totalC (summary d)) days)
    = logsCorrect ls /\
  foldr Z.add 0 (map (fun d => HistoryDrawer.totalT (summary d)) days)
    = logsDuration ls.
Proof.
  intros days summary.
  assert (Hsum : forall d, summary d = HistoryDrawer.calculateTotal (logsOn ls d)).
  { intros d. subst summary. cbv beta. rewrite !calculateTotal_logsSum.
    unfold HistoryDrawer.getLogsForDate. fold (logsOn ls d).
    rewrite !(logsSum_perm _ _ _ (sortBy_perm _ (logsOn ls d))). reflexivity. }
  split; [exact Hsum|].
  destruct (groupedData_unfiltered ls rs) as [Hsorted Hmem].
  fold days in Hsorted, Hmem.
  assert (Hnd : NoDup days).
  { clear Hmem. induction Hsorted as [|x l Hs IH Hx]; constructor; [|exact IH].
    rewrite Forall_forall in Hx. intros Hin. specialize (Hx x Hin). lia. }
  assert (Hall : forall l, l ∈ ls -> DailyLog.date l ∈ days).
  { intros l Hl. apply Hmem. left. eauto. }
  assert (Hfield : forall (p : HistoryDrawer.Totals -> Z) (f : QuestionRecord -> Z),
            (forall x, p (HistoryDrawer.calculateTotal x) = logsSum f x) ->
            foldr Z.add 0 (map (fun d => p (summary d)) days) = logsSum f ls).
  { intros p f Hp. rewrite <- (logsSum_by_day f days ls Hnd Hall).
    f_equal. apply map_ext. intros d. rewrite Hsum. apply Hp. }
  split; [|split].
  - rewrite getTotalQuestions_logsSum. apply Hfield.
    intros x. rewrite calculateTotal_logsSum. reflexivity.
  - unfold logsCorrect. rewrite logs_fold_logsSum, Z.add_0_l. apply Hfield.
    intros x. rewrite calculateTotal_logsSum. reflexivity.
  - unfold logsDuration. rewrite logs_fold_logsSum, Z.add_0_l. apply Hfield.
    intros x. rewrite calculateTotal_logsSum. reflexivity.
Qed.

Example day_summaries_example :
  let ls := [speechSession jan2 1704168000000 10 5;
             dataSession (jan2 + 1) 1704254400000 4 3;
             speechSession jan2 1704169000000 8 1] in
  HistoryDrawer.groupedData ls [noteAt (jan2 + 2) 1704340800000] None None
    = [jan2 + 2; jan2 + 1; jan2] /\
  map (fun d => HistoryDrawer.totalQ
                  (HistoryDrawer.calculateTotal (HistoryDrawer.getLogsForDate ls d)))
      [jan2 + 2; jan2 + 1; jan2] = [0; 4; 18] /\
  StatsDashboard.getTotalQuestions ls = 22.
Proof. vm_compute. repeat split; reflexivity. Qed.

(** ** The deletion flow as the user can drive it *)

Lemma fire_keeps_flowInv (tz : Z) (size : list DailyLog.t -> list ReviewNote.t -> Z)
    (render : Z -> string) (s : AppState * HistoryDrawer.State) (ev : HistoryDrawer.Event) :
  flowInv tz size render s -> flowInv tz size render (fire tz size render s ev).
Proof.
  intros Hinv. unfold fire.
  destruct (HistoryDrawer.rendered (snd s) ev) eqn:Hr; [|exact Hinv].
  destruct s as [app [mode start endD step est]].
  unfold App.dispatch. cbn [fst snd] in *.
  destruct ev; cbn [HistoryDrawer.handle].
  - right. left. cbn. auto.
  - left. cbn. auto.
  - cbn in Hr. apply andb_true_iff in Hr as [-> Hstep]. apply Z.eqb_eq in Hstep.
    right. left. cbn. auto.
  - cbn in Hr. apply andb_true_iff in Hr as [-> Hstep]. apply Z.eqb_eq in Hstep.
    right. left. cbn. auto.
  - cbn in Hr. apply andb_true_iff in Hr as [-> Hen]. apply negb_true_iff in Hen.
    unfold flowInv in Hinv. cbn in Hinv.
    destruct Hinv as [[Hm _]|[[_ ->]|(_ & Hstep & Hstart & Hend & Hest)]];
      [discriminate Hm| |].
    + cbn in Hen. destruct start as [sd|], endD as [ed|]; try discriminate Hen.
      cbn. right. right. cbn. repeat split; eauto. intros H. discriminate H.
    + destruct Hstep as [-> | ->].
      * cbn. right. right. cbn. repeat split; auto.
      * cbn. left. cbn. auto.
Qed.

(** Whatever the user does with the controls that are on screen, starting
    from the closed footer: outside delete mode the step is 0; at steps 2
    and 3 both dates are chosen; at step 3 the size on the button is the size
    of the range that the next click deletes.  So the deletion is only ever
    requested with two chosen dates. *)
Theorem flow_reachable (tz : Z) (size : list DailyLog.t -> list ReviewNote.t -> Z)
    (render : Z -> string) (app : AppState) (events : list HistoryDrawer.Event) :
  let s := foldl (fire tz size render) (app, HistoryDrawer.initialState) events in
  flowInv tz size render s /\
  forall ev call,
    snd (HistoryDrawer.handle tz size render (App.currentLogs (fst s))
           (App.currentReviews (fst s)) (snd s) ev) = Some call ->
    is_Some (fst call) /\ is_Some (snd call).
Proof.
  intros s.
  assert (Hinv : flowInv tz size render s).
  { subst s.
    assert (G : forall s0, flowInv tz size render s0 ->
                flowInv tz size render (foldl (fire tz size render) s0 events)).
    { induction events as [|ev evs IH]; intros s0 H0; cbn [foldl]; [exact H0|].
      apply IH, fire_keeps_flowInv, H0. }
    apply G. left. cbn. auto. }
  split; [exact Hinv|].
  intros ev call Hcall. apply handle_calls in Hcall as (_ & Hstep & ->).
  cbn [fst snd]. unfold flowInv in Hinv. cbv zeta in Hinv.
  destruct Hinv as [[_ H]|[[_ H]|(_ & _ & Hs & He & _)]]; [lia | lia | auto].
Qed.

Lemma flow_reachable_witness :
  HistoryDrawer.deleteConfirmStep
    (snd (foldl (fire utcPlus8 (fun _ _ => 0) (fun _ => EmptyString))
            (sampleState [speechSession jan2 1704168000000 10 5] [],
             HistoryDrawer.initialState)
            [HistoryDrawer.OpenDeleteMode;
             HistoryDrawer.ClickDeleteFlow;
             HistoryDrawer.ChangeDeleteStart (Some jan2);
             HistoryDrawer.ClickDeleteFlow;
             HistoryDrawer.ChangeDeleteEnd (Some jan2);
             HistoryDrawer.ClickDeleteFlow;
             HistoryDrawer.ChangeDeleteEnd None;
             HistoryDrawer.ClickDeleteFlow])) = 3 /\
  forall ev call,
    snd (HistoryDrawer.handle utcPlus8 (fun _ _ => 0) (fun _ => EmptyString)
           [speechSession jan2 1704168000000 10 5] []
           (HistoryDrawer.mkState true (Some jan2) (Some jan2) 3 "0 Bytes"%string) ev)
    = Some call ->
    is_Some (fst call) /\ is_Some (snd call).
Proof.
  split; [vm_compute; reflexivity|].
  exact (proj2 (flow_reachable utcPlus8 (fun _ _ => 0) (fun _ => EmptyString)
                  (sampleState [speechSession jan2 1704168000000 10 5] [])
                  [HistoryDrawer.OpenDeleteMode;
                   HistoryDrawer.ClickDeleteFlow;
                   HistoryDrawer.ChangeDeleteStart (Some jan2);
                   HistoryDrawer.ClickDeleteFlow;
                   HistoryDrawer.ChangeDeleteEnd (Some jan2);
                   HistoryDrawer.ClickDeleteFlow;
                   HistoryDrawer.ChangeDeleteEnd None;
                   HistoryDrawer.ClickDeleteFlow])).
Defined.

(** ** The check-in form *)

Lemma errorKey_inj (c1 c2 : CategoryId) :
  DailyCheckIn.errorKey c1 = DailyCheckIn.errorKey c2 -> c1 = c2.
Proof. destruct c1, c2; intros H; (reflexivity || discriminate H). Qed.

Lemma category_setCategory (c : Categories) (cat cat' : CategoryId) (r : QuestionRecord) :
  category (DailyCheckIn.setCategory c cat r) cat'
  = if decide (cat = cat') then r else category c cat'.
Proof. destruct cat, cat'; reflexivity. Qed.

Lemma handleChange_keeps_errorsTrack (st : DailyCheckIn.State) (cat : CategoryId)
    (field : DailyCheckIn.Field) (parsed : option Z) :
  errorsTrack st -> errorsTrack (DailyCheckIn.handleChange st cat field parsed).
Proof.
  intros Hinv key. unfold DailyCheckIn.handleChange.
  set (numVal := js_or (default 0 parsed) 0).
  cbn [DailyCheckIn.errors DailyCheckIn.data].
  assert (Hother : forall cat', cat' <> cat ->
            category (DailyCheckIn.setCategory (DailyCheckIn.data st) cat
                        (DailyCheckIn.setField (category (DailyCheckIn.data st) cat)
                           field numVal)) cat'
            = category (DailyCheckIn.data st) cat').
  { intros cat' Hne. rewrite category_setCategory.
    destruct (decide (cat = cat')); [congruence|reflexivity]. }
  assert (Hsame : category (DailyCheckIn.setCategory (DailyCheckIn.data st) cat
                        (DailyCheckIn.setField (category (DailyCheckIn.data st) cat)
                           field numVal)) cat
            = DailyCheckIn.setField (category (DailyCheckIn.data st) cat) field numVal).
  { rewrite category_setCategory. destruct (decide (cat = cat)); [reflexivity|congruence]. }
  destruct (decide (key = DailyCheckIn.errorKey cat)) as [->|Hkey].
  - (* the key of the edited category *)
    assert (Hrhs : forall P : CategoryId -> Prop,
              (exists cat', DailyCheckIn.errorKey cat = DailyCheckIn.errorKey cat' /\ P cat')
              <-> P cat).
    { intros P. split.
      - intros (cat' & Hk & HP). apply errorKey_inj in Hk. subst cat'. exact HP.
      - intros HP. exists cat. auto. }
    rewrite Hrhs, Hsame.
    destruct field; cbn [DailyCheckIn.setField total correct].
    + destruct (Z.ltb_spec numVal (correct (category (DailyCheckIn.data st) cat))).
      * rewrite lookup_insert_eq. split; [intros _; assumption | eauto].
      * rewrite lookup_delete_eq. split; [intros [? H']; discriminate H' | lia].
    + destruct (Z.gtb_spec numVal (total (category (DailyCheckIn.data st) cat))).
      * rewrite lookup_insert_eq. split; [intros _; lia | eauto].
      * rewrite lookup_delete_eq. split; [intros [? H']; discriminate H' | lia].
    + rewrite (Hinv (DailyCheckIn.errorKey cat)), Hrhs. reflexivity.
  - (* any other key *)
    assert (Hlook : (match field with
              | DailyCheckIn.FTotal =>
                  if numVal <? correct (category (DailyCheckIn.data st) cat)
                  then <[DailyCheckIn.errorKey cat := true]> (DailyCheckIn.errors st)
                  else delete (DailyCheckIn.errorKey cat) (DailyCheckIn.errors st)
              | DailyCheckIn.FCorrect =>
                  if numVal >? total (category (DailyCheckIn.data st) cat)
                  then <[DailyCheckIn.errorKey cat := true]> (DailyCheckIn.errors st)
                  else delete (DailyCheckIn.errorKey cat) (DailyCheckIn.errors st)
              | DailyCheckIn.FDuration => DailyCheckIn.errors st
              end) !! key = DailyCheckIn.errors st !! key).
    { destruct field; [destruct (_ <? _) | destruct (_ >? _) | reflexivity];
        first [apply lookup_insert_ne | apply lookup_delete_ne]; congruence. }
    rewrite Hlook, (Hinv key). split.
    + intros (cat' & -> & H). exists cat'. split; [reflexivity|].
      rewrite Hother by congruence. exact H.
    + intros (cat' & -> & H). exists cat'. split; [reflexivity|].
      rewrite Hother in H by congruence. exact H.
Qed.

Lemma checkInRun_errorsTrack (changes : list (CategoryId * DailyCheckIn.Field * option Z)) :
  errorsTrack (checkInRun changes).
Proof.
  unfold checkInRun.
  assert (G : forall st, errorsTrack st ->
    errorsTrack (foldl (fun st ch =>
                          DailyCheckIn.handleChange st (fst (fst ch)) (snd (fst ch)) (snd ch))
                       st changes)).
  { induction changes as [|ch rest IH]; intros st H; cbn [foldl]; [exact H|].
    apply IH, handleChange_keeps_errorsTrack, H. }
  apply G. intros key. cbn [DailyCheckIn.initialState DailyCheckIn.errors].
  rewrite lookup_empty. split.
  - intros [? H]. discriminate H.
  - intros (cat & _ & H). destruct cat; cbn in H; lia.
Qed.

(** Whatever is typed into the form, starting from the empty form: the
    submit button hands a log to [onSave] exactly when no category has more
    correct answers than questions and the number of questions is not 0; the
    log then carries the form data, so every stored record has
    [correct <= total], and it is dated by its timestamp when the two clock
    readings fall on the same local day. *)
Theorem checkIn_validation (tz : Z)
    (changes : list (CategoryId * DailyCheckIn.Field * option Z))
    (newId : string) (dateNow stampNow : Z) :
  let st := checkInRun changes in
  let valid := forall cat, correct (category (DailyCheckIn.data st) cat)
                           <= total (category (DailyCheckIn.data st) cat) in
  (valid /\ sumTotal (DailyCheckIn.data st) <> 0 <->
   DailyCheckIn.handleSubmit tz st newId dateNow stampNow
   = Some (DailyLog.mk newId (format_yyyyMMdd tz dateNow) (DailyCheckIn.data st) stampNow)) /\
  (~ (valid /\ sumTotal (DailyCheckIn.data st) <> 0) <->
   DailyCheckIn.handleSubmit tz st newId dateNow stampNow = None) /\
  (forall log, DailyCheckIn.handleSubmit tz st newId dateNow stampNow = Some log ->
     (forall cat, correct (category (DailyLog.categories log) cat)
                  <= total (category (DailyLog.categories log) cat)) /\
     (format_yyyyMMdd tz stampNow = format_yyyyMMdd tz dateNow -> wellDated tz log)).
Proof.
  intros st valid.
  pose proof (checkInRun_errorsTrack changes) as Hinv. fold st in Hinv.
  assert (Herr : (0 <? size (DailyCheckIn.errors st))%nat = false <-> valid).
  { rewrite Nat.ltb_ge. split.
    - intros Hsize cat.
      assert (Hempty : DailyCheckIn.errors st = ∅)
        by (apply map_size_empty_iff; lia).
      destruct (Z_lt_le_dec (total (category (DailyCheckIn.data st) cat))
                            (correct (category (DailyCheckIn.data st) cat))) as [Hlt|]; [|assumption].
      exfalso.
      assert (Hs : is_Some (DailyCheckIn.errors st !! DailyCheckIn.errorKey cat))
        by (apply Hinv; eauto).
      rewrite Hempty, lookup_empty in Hs. destruct Hs as [? Hs]. discriminate Hs.
    - intros Hvalid.
      assert (Hempty : DailyCheckIn.errors st = ∅).
      { apply map_empty. intros key.
        destruct (DailyCheckIn.errors st !! key) eqn:E; [|reflexivity].
        exfalso. destruct (proj1 (Hinv key) ltac:(eauto)) as (cat & _ & Hlt).
        specialize (Hvalid cat). lia. }
      rewrite Hempty, map_size_empty. lia. }
  assert (Hcases : (valid /\ sumTotal (DailyCheckIn.data st) <> 0 /\
                    DailyCheckIn.handleSubmit tz st newId dateNow stampNow
                    = Some (DailyLog.mk newId (format_yyyyMMdd tz dateNow)
                              (DailyCheckIn.data st) stampNow)) \/
                   (~ (valid /\ sumTotal (DailyCheckIn.data st) <> 0) /\
                    DailyCheckIn.handleSubmit tz st newId dateNow stampNow = None)).
  { unfold DailyCheckIn.handleSubmit. fold (sumTotal (DailyCheckIn.data st)).
    destruct (0 <? size (DailyCheckIn.errors st))%nat eqn:E.
    - right. split; [|reflexivity]. intros [Hv _]. apply Herr in Hv. discriminate Hv.
    - destruct (Z.eqb_spec (sumTotal (DailyCheckIn.data st)) 0) as [E0|E0].
      + right. split; [|reflexivity]. intros [_ H]. contradiction.
      + left. split; [apply Herr; reflexivity|]. auto. }
  split; [|split].
  - destruct Hcases as [(Hv & Hs & ->)|[Hn ->]].
    + split; auto.
    + split; [intros H; contradiction | discriminate].
  - destruct Hcases as [(Hv & Hs & ->)|[Hn ->]].
    + split; [intros H; exfalso; apply H; auto | discriminate].
    + split; auto.
  - intros log Hlog.
    destruct Hcases as [(Hv & Hs & Heq)|[Hn Heq]]; rewrite Heq in Hlog; [|discriminate].
    injection Hlog as <-. split; [exact Hv|].
    intros Hday. unfold wellDated. cbn [DailyLog.date DailyLog.timestamp]. congruence.
Qed.

Lemma checkIn_validation_witness :
  DailyCheckIn.handleSubmit utcPlus8
    (checkInRun [(Speech, DailyCheckIn.FCorrect, Some 5);
                 (Speech, DailyCheckIn.FTotal, Some 10)])
    "n1"%string 1704168000000 1704168000003
  = Some (DailyLog.mk "n1"%string (format_yyyyMMdd utcPlus8 1704168000000)
            (DailyCheckIn.data
               (checkInRun [(Speech, DailyCheckIn.FCorrect, Some 5);
                            (Speech, DailyCheckIn.FTotal, Some 10)]))
            1704168000003) /\
  DailyCheckIn.handleSubmit utcPlus8
    (checkInRun [(Speech, DailyCheckIn.FTotal, Some 10);
                 (Speech, DailyCheckIn.FCorrect, Some 12)])
    "n1"%string 1704168000000 1704168000003 = None.
Proof.
  split.
  - apply (checkIn_validation utcPlus8
             [(Speech, DailyCheckIn.FCorrect, Some 5);
              (Speech, DailyCheckIn.FTotal, Some 10)]
             "n1"%string 1704168000000 1704168000003).
    split.
    + intros cat. destruct cat; vm_compute; intros H; discriminate H.
    + vm_compute. intros H; discriminate H.
  - apply (checkIn_validation utcPlus8
             [(Speech, DailyCheckIn.FTotal, Some 10);
              (Speech, DailyCheckIn.FCorrect, Some 12)]
             "n1"%string 1704168000000 1704168000003).
    intros [Hv _]. specialize (Hv Speech). vm_compute in Hv. apply Hv. reflexivity.
Defined.

Lemma handleChange_keeps_formNonneg (st : DailyCheckIn.State) (cat : CategoryId)
    (field : DailyCheckIn.Field) (parsed : option Z) :
  0 <= default 0 parsed -> formNonneg st ->
  formNonneg (DailyCheckIn.handleChange st cat field parsed).
Proof.
  intros Hp Hinv cat'. unfold DailyCheckIn.handleChange.
  cbn [DailyCheckIn.data]. rewrite category_setCategory.
  assert (Hn : 0 <= js_or (default 0 parsed) 0).
  { unfold js_or. destruct (truthy (default 0 parsed)); lia. }
  destruct (decide (cat = cat')) as [<-|]; [|apply Hinv].
  destruct (Hinv cat) as [Ht Hc].
  destruct field; cbn [DailyCheckIn.setField total correct]; auto.
Qed.

Lemma checkInRun_formNonneg (changes : list (CategoryId * DailyCheckIn.Field * option Z)) :
  Forall (fun ch => 0 <= default 0 (snd ch)) changes ->
  formNonneg (checkInRun changes).
Proof.
  intros Hall. unfold checkInRun.
  assert (G : forall st, formNonneg st ->
    formNonneg (foldl (fun st ch =>
                         DailyCheckIn.handleChange st (fst (fst ch)) (snd (fst ch)) (snd ch))
                      st changes)).
  { induction Hall as [|ch rest Hch _ IH]; intros st H; cbn [foldl]; [exact H|].
    apply IH, handleChange_keeps_formNonneg; assumption. }
  apply G. intros cat. destruct cat; cbn; lia.
Qed.

Lemma handleSubmit_Some (tz : Z) (st : DailyCheckIn.State) (newId : string)
    (dateNow stampNow : Z) (log : DailyLog.t) :
  errorsTrack st ->
  DailyCheckIn.handleSubmit tz st newId dateNow stampNow = Some log ->
  DailyLog.categories log = DailyCheckIn.data st /\
  sumTotal (DailyCheckIn.data st) <> 0 /\
  forall cat, correct (category (DailyCheckIn.data st) cat)
              <= total (category (DailyCheckIn.data st) cat).
Proof.
  intros Hinv. unfold DailyCheckIn.handleSubmit. fold (sumTotal (DailyCheckIn.data st)).
  destruct (0 <? size (DailyCheckIn.errors st))%nat eqn:E; [discriminate|].
  destruct (Z.eqb_spec (sumTotal (DailyCheckIn.data st)) 0) as [E0|E0]; [discriminate|].
  intros [= <-]. split; [reflexivity|]. split; [exact E0|].
  intros cat. apply Nat.ltb_ge in E.
  assert (Hempty : DailyCheckIn.errors st = ∅) by (apply map_size_empty_iff; lia).
  destruct (Z_lt_le_dec (total (category (DailyCheckIn.data st) cat))
                        (correct (category (DailyCheckIn.data st) cat))) as [Hlt|]; [|assumption].
  exfalso.
  assert (Hs : is_Some (DailyCheckIn.errors st !! DailyCheckIn.errorKey cat))
    by (apply Hinv; eauto).
  rewrite Hempty, lookup_empty in Hs. destruct Hs as [? Hs]. discriminate Hs.
Qed.

(** When no negative number is typed into the form, the accuracy in its
    header is the rounded share of correct answers, 0 for an empty form.
    For a form that the submit button accepts it lies between 0 and 100 and
    is the accuracy that the dashboard chart shows for a day that holds the
    saved log alone. *)
Theorem checkIn_accuracy (tz : Z)
    (changes : list (CategoryId * DailyCheckIn.Field * option Z))
    (newId : string) (dateNow stampNow : Z) :
  Forall (fun ch => 0 <= default 0 (snd ch)) changes ->
  let st := checkInRun changes in
  DailyCheckIn.calculateDailyAccuracy st
    = accuracy (sumTotal (DailyCheckIn.data st)) (sumCorrect (DailyCheckIn.data st)) /\
  forall log, DailyCheckIn.handleSubmit tz st newId dateNow stampNow = Some log ->
    validLog log /\
    DailyCheckIn.calculateDailyAccuracy st = StatsDashboard.dayAccuracy [log] /\
    0 <= DailyCheckIn.calculateDailyAccuracy st <= 100.
Proof.
  intros Hall st.
  pose proof (checkInRun_formNonneg changes Hall) as Hnn. fold st in Hnn.
  pose proof (checkInRun_errorsTrack changes) as Hinv. fold st in Hinv.
  assert (Hsum : 0 <= sumTotal (DailyCheckIn.data st)).
  { unfold sumTotal. rewrite values_fold. unfold categoryOrder. cbn [map foldr].
    pose proof (Hnn Speech). pose proof (Hnn Politics). pose proof (Hnn Common).
    pose proof (Hnn Logic). pose proof (Hnn Data). lia. }
  assert (Hacc : DailyCheckIn.calculateDailyAccuracy st
                 = accuracy (sumTotal (DailyCheckIn.data st))
                            (sumCorrect (DailyCheckIn.data st))).
  { unfold DailyCheckIn.calculateDailyAccuracy, accuracy.
    destruct (Z.eqb_spec (sumTotal (DailyCheckIn.data st)) 0) as [E|E].
    - rewrite E. reflexivity.
    - replace (sumTotal (DailyCheckIn.data st) >? 0) with true; [reflexivity|].
      symmetry. apply Z.gtb_lt. lia. }
  split; [exact Hacc|].
  intros log Hlog.
  destruct (handleSubmit_Some _ _ _ _ _ _ Hinv Hlog) as (Hcat & Hne & Hle).
  assert (Hvalid : validLog log).
  { intros cat. rewrite Hcat. split; [apply Hnn | apply Hle]. }
  split; [exact Hvalid|]. split.
  - rewrite Hacc. unfold StatsDashboard.dayAccuracy, logsTotal, logsCorrect.
    cbn [length Nat.ltb Nat.leb foldl]. rewrite Hcat. reflexivity.
  - rewrite Hacc. split; [apply accuracy_nonneg | apply accuracy_le_100];
      unfold sumTotal, sumCorrect; rewrite !values_fold;
      unfold categoryOrder; cbn [map foldr];
      pose proof (Hnn Speech); pose proof (Hnn Politics); pose proof (Hnn Common);
      pose proof (Hnn Logic); pose proof (Hnn Data);
      pose proof (Hle Speech); pose proof (Hle Politics); pose proof (Hle Common);
      pose proof (Hle Logic); pose proof (Hle Data); lia.
Qed.

Lemma checkIn_accuracy_witness :
  DailyCheckIn.calculateDailyAccuracy
    (checkInRun [(Speech, DailyCheckIn.FTotal, Some 10);
                 (Speech, DailyCheckIn.FCorrect, Some 5);
                 (Data, DailyCheckIn.FTotal, None)])
  = accuracy 10 5.
Proof.
  apply (checkIn_accuracy utcPlus8
           [(Speech, DailyCheckIn.FTotal, Some 10);
            (Speech, DailyCheckIn.FCorrect, Some 5);
            (Data, DailyCheckIn.FTotal, None)]
           EmptyString 0 0).
  repeat constructor; cbn; lia.
Defined.

(** The inputs accept a typed minus sign: two negative entries pass the
    validation and show 200 in the header. *)
Example checkIn_negative_entries :
  let st := checkInRun [(Speech, DailyCheckIn.FTotal, Some (-4));
                        (Speech, DailyCheckIn.FCorrect, Some (-8))] in
  DailyCheckIn.calculateDailyAccuracy st = 200 /\
  DailyCheckIn.handleSubmit utcPlus8 st EmptyString 0 0
  = Some (DailyLog.mk EmptyString (format_yyyyMMdd utcPlus8 0) (DailyCheckIn.data st) 0).
Proof. split; vm_compute; reflexivity. Qed.

(** ** The stored state after loading *)

(** Whatever the store holds, [loadState] returns an object with a truthy
    [reviews] property, and loading what it returned gives the same state
    again. *)
Theorem loadState_has_reviews (r : Storage.StorageRead) :
  (exists elements props,
     Storage.loadState r = Storage.JObject elements props /\
     Storage.falsy (props !! "reviews"%string) = false) /\
  Storage.loadState (Storage.Parsed (Storage.loadState r)) = Storage.loadState r.
Proof.
  assert (Hdef : Storage.falsy
            (Storage.property Storage.DEFAULT_STATE "reviews"%string) = false)
    by (vm_compute; reflexivity).
  assert (Hdef' : Storage.loadState (Storage.Parsed Storage.DEFAULT_STATE)
                  = Storage.DEFAULT_STATE).
  { unfold Storage.DEFAULT_STATE at 1. cbn [Storage.loadState].
    change (Storage.falsy _) with
      (Storage.falsy (Storage.property Storage.DEFAULT_STATE "reviews"%string)).
    rewrite Hdef. reflexivity. }
  assert (Hobj : exists elements props,
            Storage.DEFAULT_STATE = Storage.JObject elements props /\
            Storage.falsy (props !! "reviews"%string) = false).
  { eexists _, _. split; [reflexivity|]. exact Hdef. }
  destruct r as [| | |[| b | q | s | elements props]]; cbn [Storage.loadState];
    try (split; [exact Hobj | exact Hdef']).
  destruct (Storage.falsy (props !! "reviews"%string)) eqn:E.
  - split.
    + eexists _, _. split; [reflexivity|]. rewrite lookup_insert_eq. reflexivity.
    + cbn [Storage.loadState]. rewrite lookup_insert_eq. reflexivity.
  - split.
    + eexists _, _. split; [reflexivity|]. exact E.
    + cbn [Storage.loadState]. rewrite E. reflexivity.
Qed.

(** ** More on the dashboard *)

Lemma logsSum_categories (f : QuestionRecord -> Z) (ls : list DailyLog.t) :
  logsSum f ls
  = foldr Z.add 0
      (map (fun k => foldr Z.add 0
                       (map (fun log => f (category (DailyLog.categories log) k)) ls))
           categoryOrder).
Proof.
  unfold logsSum, recordSum, categoryOrder.
  induction ls as [|log ls IH]; cbn [map foldr] in *; lia.
Qed.

Lemma categoryTotal_sum (k : CategoryId) (ls : list DailyLog.t) :
  categoryTotal k ls
  = foldr Z.add 0 (map (fun log => total (category (DailyLog.categories log) k)) ls) /\
  categoryCorrect k ls
  = foldr Z.add 0 (map (fun log => correct (category (DailyLog.categories log) k)) ls).
Proof.
  unfold categoryTotal, categoryCorrect.
  induction ls as [|log ls [IH1 IH2]]; cbn [map foldr]; [auto|].
  rewrite IH1, IH2. auto.
Qed.

Lemma categoryTotal_perm (k : CategoryId) (l1 l2 : list DailyLog.t) :
  l1 ≡ₚ l2 ->
  categoryTotal k l1 = categoryTotal k l2 /\ categoryCorrect k l1 = categoryCorrect k l2.
Proof.
  unfold categoryTotal, categoryCorrect.
  induction 1 as [|x l l' _ [IH1 IH2]|x y l|l l' l'' _ [IH1 IH2] _ [IH3 IH4]];
    cbn [foldr]; split; lia.
Qed.

(** The total of the dashboard is the sum of the five per-category totals
    that the weakest-category computation accumulates; it does not depend on
    the order of the logs, and saving a log adds that log's questions. *)
Theorem getTotalQuestions_spec (ls : list DailyLog.t) :
  StatsDashboard.getTotalQuestions ls
    = foldr Z.add 0 (map (fun k => categoryTotal k ls) categoryOrder) /\
  (forall ls', ls ≡ₚ ls' ->
     StatsDashboard.getTotalQuestions ls' = StatsDashboard.getTotalQuestions ls) /\
  (forall logData newId,
     StatsDashboard.getTotalQuestions (ls ++ [storedLog logData newId])
     = StatsDashboard.getTotalQuestions ls + sumTotal (DailyLog.categories logData)).
Proof.
  split; [|split].
  - rewrite getTotalQuestions_logsSum, logsSum_categories.
    f_equal. apply map_ext. intros k. symmetry. apply categoryTotal_sum.
  - intros ls' Hp. rewrite !getTotalQuestions_logsSum. symmetry.
    apply logsSum_perm, Hp.
  - intros logData newId. rewrite !getTotalQuestions_logsSum, logsSum_app.
    f_equal. unfold logsSum, sumTotal. cbn [map foldr].
    rewrite values_fold. unfold recordSum, storedLog. cbn [DailyLog.categories]. lia.
Qed.

Lemma getTotalQuestions_spec_witness :
  StatsDashboard.getTotalQuestions
    [dataSession jan2 2 4 3; speechSession jan2 1 10 5]
  = StatsDashboard.getTotalQuestions
    [speechSession jan2 1 10 5; dataSession jan2 2 4 3].
Proof.
  apply (getTotalQuestions_spec [speechSession jan2 1 10 5; dataSession jan2 2 4 3]).
  apply Permutation_swap.
Defined.

(** The weakest category does not depend on the order of the logs. *)
Theorem getWeakestCategory_perm (ls ls' : list DailyLog.t) :
  ls ≡ₚ ls' ->
  StatsDashboard.getWeakestCategory ls' = StatsDashboard.getWeakestCategory ls.
Proof.
  intros Hp. destruct ls as [|l ls], ls' as [|l' ls'].
  - reflexivity.
  - apply Permutation_nil_l in Hp. discriminate Hp.
  - symmetry in Hp. apply Permutation_nil_l in Hp. discriminate Hp.
  - unfold StatsDashboard.getWeakestCategory. cbn [length Nat.eqb].
    rewrite !accumulateTotals_cons. f_equal. f_equal.
    apply totalsOf_ext; intros k; symmetry; apply (categoryTotal_perm k _ _ Hp).
Qed.

Lemma getWeakestCategory_perm_witness :
  StatsDashboard.getWeakestCategory [speechSession 0 2 11 0; dataSession 0 1 20 10]
  = StatsDashboard.getWeakestCategory [dataSession 0 1 20 10; speechSession 0 2 11 0].
Proof. apply getWeakestCategory_perm. apply Permutation_swap. Defined.

Lemma streakLoop_le (tz now : Z) (l : list DailyLog.t) :
  forall (processed : gset Z) (check streak : Z),
    StatsDashboard.streakLoop tz now l processed check streak
    <= streak + Z.of_nat (length l).
Proof.
  induction l as [|log rest IH]; intros processed check streak;
    cbn [StatsDashboard.streakLoop length]; [lia|].
  cbn zeta. destruct (bool_decide _).
  - etransitivity; [apply IH|]. lia.
  - destruct (_ =? _); [|lia]. etransitivity; [apply IH|]. lia.
Qed.

(** The streak is never more than the number of logs, whatever their dates
    and timestamps. *)
Theorem calculateStreak_bounds (tz now : Z) (ls : list DailyLog.t) :
  0 <= StatsDashboard.calculateStreak tz now ls <= Z.of_nat (length ls).
Proof.
  split; [apply calculateStreak_nonneg|].
  unfold StatsDashboard.calculateStreak.
  destruct (length ls =? 0)%nat; [lia|].
  pose proof (Permutation_length
                (sortBy_perm (fun a b => DailyLog.timestamp b - DailyLog.timestamp a) ls))
    as Hlen.
  destruct (sortBy _ ls) as [|first rest] eqn:E; [lia|].
  cbn zeta. destruct (Qlt_le_dec _ _); [lia|].
  etransitivity; [apply streakLoop_le|]. lia.
Qed.

(** For logs dated by their timestamps the streak depends only on which
    days are active: the number of sessions per day and the order of the
    logs do not matter. *)
Theorem calculateStreak_by_active_days (tz now : Z) (ls ls' : list DailyLog.t) :
  Forall (wellDated tz) ls -> Forall (wellDated tz) ls' ->
  (forall d, activeDay ls d <-> activeDay ls' d) ->
  StatsDashboard.calculateStreak tz now ls = StatsDashboard.calculateStreak tz now ls'.
Proof.
  intros Hwd Hwd' Hsame.
  destruct ls as [|l0 ls0] eqn:Els.
  { destruct ls' as [|l0' ls0']; [reflexivity|].
    exfalso. apply (activeDay_nil (DailyLog.date l0')), Hsame.
    exists l0'. split; [left | reflexivity]. }
  destruct ls' as [|l0' ls0'] eqn:Els'.
  { exfalso. apply (activeDay_nil (DailyLog.date l0)), Hsame.
    exists l0. split; [left | reflexivity]. }
  rewrite <- Els in *. rewrite <- Els' in *.
  destruct (calculateStreak_cases tz now ls Hwd ltac:(subst ls; discriminate))
    as (m & Hm & Hmax & Hc).
  destruct (calculateStreak_cases tz now ls' Hwd' ltac:(subst ls'; discriminate))
    as (m' & Hm' & Hmax' & Hc').
  assert (m' = m) as ->.
  { pose proof (Hmax _ (proj2 (Hsame _) Hm')). pose proof (Hmax' _ (proj1 (Hsame _) Hm)).
    lia. }
  set (k := StatsDashboard.calculateStreak tz now ls) in *.
  set (k' := StatsDashboard.calculateStreak tz now ls') in *.
  destruct Hc as [[Hfar Hk]|(Hnear & Hpos & Hrun & Hgap)],
           Hc' as [[Hfar' Hk']|(Hnear' & Hpos' & Hrun' & Hgap')]; try lia.
  destruct (Z.lt_trichotomy k k') as [Hlt|[Heq|Hgt]]; [|exact Heq|].
  - exfalso. apply Hgap, Hsame, Hrun'. lia.
  - exfalso. apply Hgap', Hsame, Hrun. lia.
Qed.

Lemma calculateStreak_by_active_days_witness :
  StatsDashboard.calculateStreak utcPlus8 1704254400000
    [speechSession jan2 1704168000000 10 5;
     speechSession (jan2 + 1) 1704254400000 4 3]
  = StatsDashboard.calculateStreak utcPlus8 1704254400000
    [speechSession (jan2 + 1) 1704254400000 4 3;
     speechSession jan2 1704169000000 8 1;
     speechSession jan2 1704168000000 10 5].
Proof.
  apply calculateStreak_by_active_days.
  - repeat constructor; vm_compute; reflexivity.
  - repeat constructor; vm_compute; reflexivity.
  - intros d. unfold activeDay. split; intros (l & Hin & Hd).
    + repeat (apply elem_of_cons in Hin as [->|Hin]); [| |inversion Hin].
      * eexists. split; [right; left|exact Hd].
      * eexists. split; [left|exact Hd].
    + repeat (apply elem_of_cons in Hin as [->|Hin]); [| | |inversion Hin].
      * eexists. split; [right; left|exact Hd].
      * eexists. split; [left|exact Hd].
      * eexists. split; [left|exact Hd].
Defined.

(** A check-in dated today makes the streak at least 1, for logs dated by
    their timestamps. *)
Theorem streak_after_checkin (tz now : Z) (ls : list DailyLog.t)
    (logData : DailyLog.t) (newId : string) :
  Forall (wellDated tz) ls ->
  wellDated tz logData ->
  DailyLog.date logData = format_yyyyMMdd tz now ->
  1 <= StatsDashboard.calculateStreak tz now (ls ++ [storedLog logData newId]).
Proof.
  intros Hwd Hlog Htoday.
  assert (Hwd' : Forall (wellDated tz) (ls ++ [storedLog logData newId])).
  { apply Forall_app. split; [exact Hwd|]. constructor; [exact Hlog|constructor]. }
  assert (Hactive : activeDay (ls ++ [storedLog logData newId]) (format_yyyyMMdd tz now)).
  { exists (storedLog logData newId). split; [|exact Htoday].
    apply elem_of_app. right. left. }
  destruct (calculateStreak_cases tz now _ Hwd'
              ltac:(intros H; apply app_eq_nil in H as [_ H]; discriminate H))
    as (m & Hm & Hmax & Hc).
  pose proof (Hmax _ Hactive) as Hle.
  destruct Hc as [[Hfar _]|(_ & Hpos & _ & Hgap)]; [lia|].
  destruct (Z.eq_dec (StatsDashboard.calculateStreak tz now
                        (ls ++ [storedLog logData newId])) 0) as [E|E]; [|lia].
  exfalso. apply Hgap. rewrite E, Z.sub_0_r. exact Hm.
Qed.

Lemma streak_after_checkin_witness :
  1 <= StatsDashboard.calculateStreak utcPlus8 1704254400000
         ([speechSession (jan2 - 3) 1703908800000 10 5]
          ++ [storedLog (speechSession (jan2 + 1) 1704254400000 4 3) "n1"%string]).
Proof.
  apply (streak_after_checkin utcPlus8 1704254400000
           [speechSession (jan2 - 3) 1703908800000 10 5]
           (speechSession (jan2 + 1) 1704254400000 4 3) "n1"%string).
  - repeat constructor; vm_compute; reflexivity.
  - vm_compute; reflexivity.
  - vm_compute; reflexivity.
Defined.

(** ** Accuracy of valid logs *)

Lemma valid_sums (sel : option CategoryId) (ls : list DailyLog.t) :
  Forall validLog ls -> 0 <= correctOver sel ls <= totalOver sel ls.
Proof.
  unfold correctOver, totalOver.
  induction 1 as [|log ls Hv _ IH]; cbn [map foldr]; [lia|].
  assert (0 <= correctOf sel log <= totalOf sel log).
  { unfold correctOf, totalOf. destruct sel as [k|]; [apply Hv|].
    unfold categoryOrder. cbn [map foldr].
    pose proof (Hv Speech). pose proof (Hv Politics). pose proof (Hv Common).
    pose proof (Hv Logic). pose proof (Hv Data). lia. }
  lia.
Qed.

Lemma accuracy_in_range (t c : Z) : 0 <= c <= t -> 0 <= accuracy t c <= 100.
Proof.
  intros H. split; [apply accuracy_nonneg | apply accuracy_le_100]; lia.
Qed.

Lemma SD_dayAccuracy_in_range (dayLogs : list DailyLog.t) :
  Forall validLog dayLogs -> 0 <= StatsDashboard.dayAccuracy dayLogs <= 100.
Proof.
  intros Hv. unfold StatsDashboard.dayAccuracy.
  destruct (0 <? length dayLogs)%nat; [|lia].
  destruct (logsTotal_totalOver dayLogs) as [-> ->].
  apply accuracy_in_range, valid_sums, Hv.
Qed.

Lemma RS_dayAccuracy_in_range (sel : option CategoryId) (dayLogs : list DailyLog.t) :
  Forall validLog dayLogs -> 0 <= ReviewSection.dayAccuracy sel dayLogs <= 100.
Proof.
  intros Hv. unfold ReviewSection.dayAccuracy.
  destruct (0 <? length dayLogs)%nat; [|lia].
  destruct (selected_totalOver sel dayLogs) as [-> ->].
  apply accuracy_in_range, valid_sums, Hv.
Qed.

Lemma SD_daysLoop_in_range (tz : Z) (ls : list DailyLog.t) (endT current : Z) :
  Forall validLog ls ->
  Forall (fun p => 0 <= StatsDashboard.pointAccuracy p <= 100)
         (StatsDashboard.daysLoop tz ls endT current).
Proof.
  intros Hv. funelim (StatsDashboard.daysLoop tz ls endT current).
  - constructor.
    + cbn [StatsDashboard.pointAccuracy].
      apply SD_dayAccuracy_in_range, Forall_filter_bool, Hv.
    + apply H. exact Hv.
  - constructor.
Qed.

Lemma RS_daysLoop_in_range (tz now : Z) (ls : list DailyLog.t) (rs : list ReviewNote.t)
    (startDate endDate : option Z) (sel : option CategoryId) (endT d : Z) :
  Forall validLog ls ->
  Forall (fun p => 0 <= ReviewSection.pointAccuracy p <= 100)
         (ReviewSection.daysLoop tz now ls rs startDate endDate sel endT d).
Proof.
  intros Hv. funelim (ReviewSection.daysLoop tz now ls rs startDate endDate sel endT d).
  - constructor.
    + cbn [ReviewSection.pointAccuracy].
      apply RS_dayAccuracy_in_range. unfold ReviewSection.filteredData.
      cbn [ReviewSection.periodLogs]. do 2 apply Forall_filter_bool. exact Hv.
    + apply H. exact Hv.
  - constructor.
Qed.

Lemma Forall_imap_in {A B} (P : B -> Prop) (f : nat -> A -> B) (l : list A) :
  (forall i x, x ∈ l -> P (f i x)) -> Forall P (imap f l).
Proof.
  intros H. apply Forall_lookup. intros i y Hy.
  rewrite list_lookup_imap in Hy.
  destruct (l !! i) as [x|] eqn:E; [|discriminate Hy].
  injection Hy as <-. apply H. eapply list_elem_of_lookup_2. exact E.
Qed.

(** When every record has between 0 and [total] correct answers, every
    point of both trend charts lies between 0 and 100, the range of the
    chart axis, for any pair of dates and any category selection. *)
Theorem chart_within_axis (tz now : Z) (ls : list DailyLog.t) (rs : list ReviewNote.t)
    (startDate endDate : option Z) (sel : option CategoryId) :
  Forall validLog ls ->
  Forall (fun p => 0 <= StatsDashboard.pointAccuracy p <= 100)
         (StatsDashboard.chartData tz now ls startDate endDate) /\
  Forall (fun p => 0 <= ReviewSection.pointAccuracy p <= 100)
         (ReviewSection.chartData tz now ls rs startDate endDate sel).
Proof.
  intros Hv. split.
  - unfold StatsDashboard.chartData.
    destruct (bool_decide (startDate = endDate)); [|apply SD_daysLoop_in_range, Hv].
    apply Forall_imap_in. intros i log Hlog. cbn [StatsDashboard.pointAccuracy].
    destruct (sumTotal_totalOf log) as [-> ->].
    rewrite sortBy_perm in Hlog.
    apply list_elem_of_In, filter_In in Hlog as [Hlog _]. apply list_elem_of_In in Hlog.
    rewrite Forall_forall in Hv.
    pose proof (valid_sums None [log] ltac:(constructor; [apply Hv, Hlog|constructor])) as Hs.
    unfold correctOver, totalOver in Hs. cbn [map foldr] in Hs.
    apply accuracy_in_range. lia.
  - unfold ReviewSection.chartData.
    destruct (bool_decide (startDate = endDate)); [|apply RS_daysLoop_in_range, Hv].
    apply Forall_imap_in. intros i log Hlog. cbn [ReviewSection.pointAccuracy].
    destruct (selected_totalOf sel log 0) as [-> ->].
    rewrite sortBy_perm in Hlog. unfold ReviewSection.filteredData in Hlog.
    cbn [ReviewSection.periodLogs] in Hlog.
    apply list_elem_of_In, filter_In in Hlog as [Hlog _]. apply list_elem_of_In in Hlog.
    rewrite Forall_forall in Hv.
    pose proof (valid_sums sel [log] ltac:(constructor; [apply Hv, Hlog|constructor])) as Hs.
    unfold correctOver, totalOver in Hs. cbn [map foldr] in Hs.
    apply accuracy_in_range. lia.
Qed.

Lemma chart_within_axis_witness :
  Forall (fun p => 0 <= StatsDashboard.pointAccuracy p <= 100)
    (StatsDashboard.chartData utcPlus8 0
       [speechSession jan2 1704168000000 10 5;
        speechSession (jan2 + 2) 1704340800000 4 3]
       (Some jan2) (Some (jan2 + 2))).
Proof.
  apply (chart_within_axis utcPlus8 0
           [speechSession jan2 1704168000000 10 5;
            speechSession (jan2 + 2) 1704340800000 4 3] [] (Some jan2) (Some (jan2 + 2)) None).
  repeat constructor; destruct cat; vm_compute; intros H; discriminate H.
Defined.

(** ** The statistics of the review section *)

Lemma selectedDuration_fold (sel : option CategoryId) (ls : list DailyLog.t) (a : Z) :
  foldl (fun acc log => ReviewSection.selectedDuration sel log acc) a ls
  = a + foldr Z.add 0
          (map (fun log => match sel with
                           | None => recordSum duration log
                           | Some k => duration (category (DailyLog.categories log) k)
                           end) ls).
Proof.
  revert a. induction ls as [|log ls IH]; intros a; cbn [foldl map foldr]; [lia|].
  rewrite IH. unfold ReviewSection.selectedDuration.
  destruct sel; [lia|]. rewrite values_fold. unfold recordSum. lia.
Qed.

Lemma selectedTotal_fold (sel : option CategoryId) (ls : list DailyLog.t) (a : Z) :
  foldl (fun acc log => ReviewSection.selectedTotal sel log acc) a ls
  = a + foldr Z.add 0
          (map (fun log => match sel with
                           | None => recordSum total log
                           | Some k => total (category (DailyLog.categories log) k)
                           end) ls).
Proof.
  revert a. induction ls as [|log ls IH]; intros a; cbn [foldl map foldr]; [lia|].
  rewrite IH. unfold ReviewSection.selectedTotal.
  destruct sel; [lia|]. rewrite values_fold. unfold recordSum. lia.
Qed.

Lemma remove_dups_length_le {A} `{EqDecision A} (l : list A) :
  (length (remove_dups l) <= length l)%nat.
Proof.
  induction l as [|x l IH]; cbn [remove_dups length]; [lia|].
  destruct (decide_rel elem_of x l); cbn [length]; lia.
Qed.

(** The range statistics for all categories are the sums of the statistics
    for the five single categories (questions and minutes); the number of
    active days is the same for every selection and never more than the
    number of logs in the period; with valid records the accuracy lies
    between 0 and 100. *)
Theorem viewStats_spec (tz now : Z) (ls : list DailyLog.t) (rs : list ReviewNote.t)
    (startDate endDate : option Z) :
  let stats := ReviewSection.viewStats tz now ls rs startDate endDate in
  let period := ReviewSection.periodLogs
                  (ReviewSection.filteredData tz now ls rs startDate endDate) in
  ReviewSection.totalQuestions (stats None)
    = foldr Z.add 0 (map (fun k => ReviewSection.totalQuestions (stats (Some k)))
                         categoryOrder) /\
  ReviewSection.totalDuration (stats None)
    = foldr Z.add 0 (map (fun k => ReviewSection.totalDuration (stats (Some k)))
                         categoryOrder) /\
  (forall sel,
     ReviewSection.daysActive (stats sel) = ReviewSection.daysActive (stats None) /\
     (ReviewSection.daysActive (stats sel) <= length period)%nat /\
     (period = [] ->
        ReviewSection.totalQuestions (stats sel) = 0 /\
        ReviewSection.viewAccuracy (stats sel) = 0 /\
        ReviewSection.daysActive (stats sel) = 0%nat) /\
     (Forall validLog ls -> 0 <= ReviewSection.viewAccuracy (stats sel) <= 100)).
Proof.
  intros stats period. subst stats. unfold ReviewSection.viewStats.
  cbn [ReviewSection.totalQuestions ReviewSection.totalDuration
       ReviewSection.daysActive ReviewSection.viewAccuracy].
  fold period.
  split; [|split].
  - rewrite selectedTotal_fold.
    unfold categoryOrder. cbn [map foldr]. rewrite !selectedTotal_fold.
    unfold recordSum, categoryOrder.
    induction period as [|log p IH]; cbn [map foldr] in *; lia.
  - rewrite selectedDuration_fold.
    unfold categoryOrder. cbn [map foldr]. rewrite !selectedDuration_fold.
    unfold recordSum, categoryOrder.
    induction period as [|log p IH]; cbn [map foldr] in *; lia.
  - intros sel. split; [reflexivity|]. split; [|split].
    + etransitivity; [apply remove_dups_length_le|]. rewrite length_map. lia.
    + intros ->. auto.
    + intros Hv. destruct (selected_totalOver sel period) as [-> ->].
      apply accuracy_in_range, valid_sums.
      subst period. unfold ReviewSection.filteredData. cbn [ReviewSection.periodLogs].
      apply Forall_filter_bool, Hv.
Qed.

Lemma viewStats_spec_witness :
  0 <= ReviewSection.viewAccuracy
         (ReviewSection.viewStats utcPlus8 0
            [speechSession jan2 1704168000000 10 5;
             dataSession (jan2 + 1) 1704254400000 4 3] []
            (Some jan2) (Some (jan2 + 1)) (Some Data)) <= 100.
Proof.
  apply (viewStats_spec utcPlus8 0
           [speechSession jan2 1704168000000 10 5;
            dataSession (jan2 + 1) 1704254400000 4 3] []
           (Some jan2) (Some (jan2 + 1))).
  repeat constructor; destruct cat; vm_compute; intros H; discriminate H.
Defined.
